(** * Question generator: a shallow embedding of agent.py, openai_module.py
      and main.py, with the properties of the specification settled on it.

    Conventions of the embedding.
    - A Python [str] is the list of its Unicode code points ([len] counts
      code points, as Python does).  String literals of the source are
      written as UTF-8 literals and decoded by [py].
    - A Python [int] is a [Z].
    - The one floating-point expression of the source, [max_length * 0.7],
      is computed exactly as binary64 arithmetic does (module [Float]).
    - Calls of [logger] write to the process log and never influence a
      value or the control flow; they are left out.  The effects that are
      kept are the ones the program has on the outside world: HTTP requests,
      completion requests and the sleeps of the retry policy. *)

From Stdlib Require Import ZArith NArith Lia Bool Ascii String DecimalString.
From stdpp Require Import base list.

Local Open Scope Z_scope.

(** ** Python strings *)

Abbreviation char := N.
Abbreviation str := (list N).

(** UTF-8 decoding of a literal: [need] continuation bytes are still
    expected for the code point accumulated in [acc]. *)
Fixpoint utf8_decode (s : string) (need : nat) (acc : N) : str :=
  match s with
  | EmptyString => []
  | String a s' =>
      let b := N_of_ascii a in
      match need with
      | O =>
          if (b <? 128)%N then b :: utf8_decode s' 0 0%N
          else if (b <? 224)%N then utf8_decode s' 1 (b - 192)%N
          else if (b <? 240)%N then utf8_decode s' 2 (b - 224)%N
          else utf8_decode s' 3 (b - 240)%N
      | S O => (acc * 64 + (b - 128))%N :: utf8_decode s' 0 0%N
      | S k => utf8_decode s' k (acc * 64 + (b - 128))%N
      end
  end.

Definition py (s : string) : str := utf8_decode s 0 0%N.
Arguments py s%_string.

(** The characters the source names: space and newline. *)
Definition space : char := 32%N.
Definition nl : char := 10%N.

(** [len(s)] *)
Definition len (s : str) : Z := Z.of_nat (length s).

(** [s[:k]], with Python's reading of a negative bound (counted from the
    end) and its clamping to the string. *)
Definition slice_to (k : Z) (s : str) : str :=
  if k <? 0 then take (Z.to_nat (len s + k)) s else take (Z.to_nat k) s.

(** [s[k:]], same conventions. *)
Definition slice_from (k : Z) (s : str) : str :=
  if k <? 0 then drop (Z.to_nat (len s + k)) s else drop (Z.to_nat k) s.

(** [str.isspace] on one character: the code points for which CPython's
    [Py_UNICODE_ISSPACE] holds.  [str.strip()] and the regular expression
    class [\s] on [str] patterns both use it. *)
Definition isspace (c : char) : bool :=
  ((9 <=? c) && (c <=? 13) || (28 <=? c) && (c <=? 32)
   || (c =? 133) || (c =? 160) || (c =? 5760)
   || (8192 <=? c) && (c <=? 8202) || (c =? 8232) || (c =? 8233)
   || (c =? 8239) || (c =? 8287) || (c =? 12288))%N.

(** [s.lstrip()], [s.rstrip()], [s.strip()] *)
Fixpoint lstrip (s : str) : str :=
  match s with
  | c :: s' => if isspace c then lstrip s' else s
  | [] => []
  end.

Definition rstrip (s : str) : str := reverse (lstrip (reverse s)).

Definition strip (s : str) : str := rstrip (lstrip s).

(** [s.lstrip(chars)] *)
Fixpoint lstrip_chars (chars : str) (s : str) : str :=
  match s with
  | c :: s' => if existsb (N.eqb c) chars then lstrip_chars chars s' else s
  | [] => []
  end.

(** [s.rfind(c)] for a one-character needle [c], the only kind the source
    uses: the highest index holding [c], or -1.  [i] is the index of the
    head of [s] and [last] the highest match before it. *)
Fixpoint rfind_from (c : char) (s : str) (i last : Z) : Z :=
  match s with
  | [] => last
  | x :: s' => rfind_from c s' (i + 1) (if (x =? c)%N then i else last)
  end.

Definition rfind (c : char) (s : str) : Z := rfind_from c s 0 (-1).

(** [s.find(c)], likewise. *)
Fixpoint find_from (c : char) (s : str) (i : Z) : Z :=
  match s with
  | [] => -1
  | x :: s' => if (x =? c)%N then i else find_from c s' (i + 1)
  end.

Definition find (c : char) (s : str) : Z := find_from c s 0.

(** [s.split(sep)] for a one-character separator: every occurrence splits. *)
Fixpoint split (sep : char) (s : str) : list str :=
  match s with
  | [] => [[]]
  | x :: s' =>
      if (x =? sep)%N then [] :: split sep s'
      else match split sep s' with
           | w :: ws => (x :: w) :: ws
           | [] => [[x]]
           end
  end.

(** [s.split(sep, 1)]: split at the first occurrence only. *)
Definition split1 (sep : char) (s : str) : list str :=
  let p := find sep s in
  if p <? 0 then [s] else [slice_to p s; slice_from (p + 1) s].

(** [s.rsplit(sep, 1)]: split at the last occurrence only. *)
Definition rsplit1 (sep : char) (s : str) : list str :=
  let p := rfind sep s in
  if p <? 0 then [s] else [slice_to p s; slice_from (p + 1) s].

(** [sep.join(parts)] *)
Fixpoint join (sep : str) (parts : list str) : str :=
  match parts with
  | [] => []
  | [p] => p
  | p :: ps => p ++ sep ++ join sep ps
  end.

(** [str(n)] for an [int] *)
Definition str_of_int (n : Z) : str := py (NilZero.string_of_int (Z.to_int n)).

(** Truth value of a string: non-empty. *)
Definition truthy (s : str) : bool := negb (len s =? 0).

Definition str_eqb (a b : str) : bool := bool_decide (a = b).

(** ** Float: the product [max_length * 0.7]

    Python converts the [int] to binary64 and multiplies by the binary64
    constant nearest to 0.7, rounding to nearest, ties to even.  Values are
    kept as integer multiples of 2^-53, so that the comparison of an [int]
    with the product is exact, as Python's is.  The conversion overflows
    only for an [int] of magnitude 2^1024 or more, where Python raises
    [OverflowError]; no cap below the length of a string gets there. *)
Module Float.

(** [0.7] is [0x1.6666666666666p-1], that is [mant_07] * 2^-53. *)
Definition mant_07 : Z := 6305039478318694.

(** Round a non-negative integer to 53 significant bits, ties to even. *)
Definition round53 (m : Z) : Z :=
  let bits := Z.log2 m + 1 in
  if bits <=? 53 then m
  else
    let s := bits - 53 in
    let q := Z.shiftr m s in
    let r := Z.land m (Z.ones s) in
    let half := Z.shiftl 1 (s - 1) in
    let q' := if (half <? r) || ((r =? half) && Z.odd q) then q + 1 else q in
    Z.shiftl q' s.

(** [n * 0.7], in units of 2^-53. *)
Definition mul_07 (n : Z) : Z :=
  Z.sgn n * round53 (round53 (Z.abs n) * mant_07).

(** [pos > n * 0.7] for [int]s [pos] and [n]. *)
Definition gt_mul_07 (pos n : Z) : bool := mul_07 n <? pos * 2 ^ 53.

End Float.

(** ** agent.py: constants and the smart truncator *)

Definition MAX_TEXT_LENGTH : Z := 10000.
Definition MAX_TEXT_LENGTH_FOR_OPENAI : Z := 8000.
Definition MIN_TEXT_LENGTH : Z := 50.

Definition sentence_endings : list char := py ".!?。！？".

(** [smart_truncate_text] (agent.py, 248-290). *)
Definition smart_truncate_text (text : str) (max_length : Z) : str :=
  if len text <=? max_length then text
  else
    let truncated := slice_to max_length text in
    let last_sentence_end :=
      fold_left
        (fun last ending =>
           let pos := rfind ending truncated in
           if Float.gt_mul_07 pos max_length then Z.max last pos else last)
        sentence_endings (-1) in
    if 0 <? last_sentence_end then slice_to (last_sentence_end + 1) text
    else
      let last_space := rfind space truncated in
      if Float.gt_mul_07 last_space max_length then slice_to last_space text
      else slice_to max_length text.

(** The truncator as the specification words it: the window of the search
    is "the portion at or after position 0.7 * maxLength" of the prefix,
    the bound taken as the exact number. *)
Module AsSpecified.

Definition in_window (p max_length : Z) : bool :=
  (7 * max_length <=? 10 * p) && (p <? max_length).

(** Highest index of the window of [text[:max_length]] holding a
    character that satisfies [f], or -1. *)
Fixpoint rightmost_from (f : char -> bool) (s : str) (max_length i last : Z) : Z :=
  match s with
  | [] => last
  | x :: s' =>
      rightmost_from f s' max_length (i + 1)
        (if f x && in_window i max_length then i else last)
  end.

Definition truncate (text : str) (max_length : Z) : str :=
  if len text <=? max_length then text
  else
    let p := rightmost_from (fun c => existsb (N.eqb c) sentence_endings)
               text max_length 0 (-1) in
    if 0 <=? p then slice_to (p + 1) text
    else
      let q := rightmost_from (N.eqb space) text max_length 0 (-1) in
      if 0 <=? q then slice_to q text else slice_to max_length text.

End AsSpecified.

Definition letters (n : nat) : str := repeat 97%N n.

(** The text whose lines are [lines]. *)
Definition lines_text (lines : list str) : str := join [nl] lines.

(** *** The vocabulary of the truncator's contract

    [in_window max_length p]: [p] is an index of the prefix
    [text[:max_length]] that lies after [max_length * 0.7], the float
    product of the source. *)
Definition in_window (max_length p : Z) : Prop :=
  Float.gt_mul_07 p max_length = true /\ p < max_length.

Definition holds_at (text : str) (p : Z) (P : char -> Prop) : Prop :=
  0 <= p /\ exists c, text !! Z.to_nat p = Some c /\ P c.

Definition rightmost_in_window (P : char -> Prop) (text : str) (max_length p : Z) : Prop :=
  in_window max_length p /\ holds_at text p P /\
  forall q, in_window max_length q -> holds_at text q P -> q <= p.

Definition none_in_window (P : char -> Prop) (text : str) (max_length : Z) : Prop :=
  forall q, in_window max_length q -> ~ holds_at text q P.

Definition is_sentence_ending (c : char) : Prop := c ∈ sentence_endings.

Definition is_space (c : char) : Prop := c = space.

(** ** openai_module.py: parsing the completion text *)

(** The code points for which [str.isdigit] holds (Numeric_Type Digit or
    Decimal; Unicode 14.0.0, the table of CPython 3.11), as inclusive
    ranges. *)
Definition isdigit_ranges : list (N * N) :=
  [(48, 57); (178, 179); (185, 185); (1632, 1641); (1776, 1785);
   (1984, 1993); (2406, 2415); (2534, 2543); (2662, 2671); (2790, 2799);
   (2918, 2927); (3046, 3055); (3174, 3183); (3302, 3311); (3430, 3439);
   (3558, 3567); (3664, 3673); (3792, 3801); (3872, 3881); (4160, 4169);
   (4240, 4249); (4969, 4977); (6112, 6121); (6160, 6169); (6470, 6479);
   (6608, 6618); (6784, 6793); (6800, 6809); (6992, 7001); (7088, 7097);
   (7232, 7241); (7248, 7257); (8304, 8304); (8308, 8313); (8320, 8329);
   (9312, 9320); (9332, 9340); (9352, 9360); (9450, 9450); (9461, 9469);
   (9471, 9471); (10102, 10110); (10112, 10120); (10122, 10130);
   (42528, 42537); (43216, 43225); (43264, 43273); (43472, 43481);
   (43504, 43513); (43600, 43609); (44016, 44025); (65296, 65305);
   (66720, 66729); (68160, 68163); (68912, 68921); (69216, 69224);
   (69714, 69722); (69734, 69743); (69872, 69881); (69942, 69951);
   (70096, 70105); (70384, 70393); (70736, 70745); (70864, 70873);
   (71248, 71257); (71360, 71369); (71472, 71481); (71904, 71913);
   (72016, 72025); (72784, 72793); (73040, 73049); (73120, 73129);
   (92768, 92777); (92864, 92873); (93008, 93017); (120782, 120831);
   (123200, 123209); (123632, 123641); (125264, 125273); (127232, 127242);
   (130032, 130041)]%N.

Definition isdigit (c : char) : bool :=
  existsb (fun r => (fst r <=? c) && (c <=? snd r))%N isdigit_ranges.

Definition dot : char := 46%N.

(** The list markers of [startswith(('-', '*', '•'))] and [lstrip('-*•')]. *)
Definition list_markers : list char := py "-*•".

(** [x and len(x) > 3] *)
Definition long_enough (x : str) : bool := truthy x && (3 <? len x).

(** Line 134: the stripped non-blank lines of the response. *)
Definition all_lines (result_text : str) : list str :=
  map strip (List.filter (fun line => truthy (strip line)) (split nl result_text)).

(** Lines 139-149: one line of the first parse, without its numbering and
    its list marker. *)
Definition clean_line (line : str) : str :=
  let cleaned := line in
  let cleaned :=
    match cleaned with
    | c :: _ =>
        if isdigit c then
          match split1 dot cleaned with
          | [_; rest] => strip rest
          | _ => cleaned
          end
        else cleaned
    | [] => cleaned
    end in
  match cleaned with
  | c :: _ =>
      if existsb (N.eqb c) list_markers then strip (slice_from 1 cleaned)
      else cleaned
  | [] => cleaned
  end.

(** Lines 136-153: the first parse. *)
Definition first_parse (lines : list str) : list str :=
  List.filter long_enough (map clean_line lines).

(** Lines 158-164: the simpler second parse. *)
Definition second_parse (lines : list str) : list str :=
  let questions := List.filter long_enough lines in
  let questions :=
    map (fun q => strip (lstrip_chars list_markers (strip (List.last (split1 dot q) []))))
        questions in
  List.filter long_enough questions.

(** Lines 134-164: the list before the clamp, the first parse when it has
    five entries or more and the second otherwise. *)
Definition chosen_parse (result_text : str) : list str :=
  let lines := all_lines result_text in
  if Z.of_nat (length (first_parse lines)) <? 5 then second_parse lines
  else first_parse lines.

(** Lines 134-176: from the stripped response text to the returned list. *)
Definition parse_questions (result_text : str) : list str :=
  let lines := all_lines result_text in
  let questions := first_parse lines in
  let questions :=
    if Z.of_nat (length questions) <? 5 then second_parse lines else questions in
  let questions := take 5 questions in
  take 5 questions.

(** ** Exceptions

    The classes the three modules raise or catch, with their direct bases:
    the built-in ones, those of requests, of openai and of FastAPI.
    ([RequestException] derives from [OSError]; no handler of the source
    names a class between it and [Exception].) *)
Inductive exc_class :=
| Exception | ValueError | UnboundLocalError
| RequestException | HTTPError | ConnectionError | Timeout
| ConnectTimeout | ReadTimeout | TooManyRedirects
| OpenAIError | APIError | APIConnectionError | APITimeoutError
| APIStatusError | RateLimitError
| HTTPException.

#[global] Instance exc_class_eq_dec : EqDecision exc_class.
Proof. solve_decision. Defined.

Definition bases (c : exc_class) : list exc_class :=
  match c with
  | Exception => []
  | ValueError | UnboundLocalError | RequestException | OpenAIError
  | HTTPException => [Exception]
  | HTTPError | ConnectionError | Timeout | TooManyRedirects => [RequestException]
  | ConnectTimeout => [ConnectionError; Timeout]
  | ReadTimeout => [Timeout]
  | APIError => [OpenAIError]
  | APIConnectionError | APIStatusError => [APIError]
  | APITimeoutError => [APIConnectionError]
  | RateLimitError => [APIStatusError]
  end.

(** [issubclass(c, d)]; no chain of bases is longer than four. *)
Fixpoint issubclass_depth (depth : nat) (c d : exc_class) : bool :=
  bool_decide (c = d)
  || match depth with
     | O => false
     | S k => existsb (fun b => issubclass_depth k b d) (bases c)
     end.

Definition issubclass : exc_class -> exc_class -> bool := issubclass_depth 4.

(** An exception object: its class, its message (the [detail] of an
    [HTTPException]) and, for an [HTTPException], its status code. *)
Record exc := MkExc {
  exc_type : exc_class;
  exc_message : str;
  exc_status_code : option Z }.

Definition Exc (c : exc_class) (message : str) : exc := MkExc c message None.

(** [HTTPException(status_code=..., detail=...)] *)
Definition HTTPException_ (status_code : Z) (detail : str) : exc :=
  MkExc HTTPException detail (Some status_code).

Definition isinstance (e : exc) (c : exc_class) : bool := issubclass (exc_type e) c.

(** [str(e)]: the message; Starlette prints an [HTTPException] as
    "status: detail". *)
Definition str_of_exc (e : exc) : str :=
  match exc_status_code e with
  | Some status => str_of_int status ++ py ": " ++ exc_message e
  | None => exc_message e
  end.

(** ** Effects

    A computation runs on the trace of what the process has done to the
    outside world so far and either returns or raises. *)
Inductive event :=
| Sleep (seconds : Z)
| HttpGet (url : str) (timeout : Z)
| CompletionsCreate (prompt : str).

Abbreviation trace := (list event).

Inductive result (A : Type) :=
| Ok (a : A)
| Raise (e : exc).
Arguments Ok {A} a.
Arguments Raise {A} e.

Definition M (A : Type) : Type := trace -> result A * trace.

Definition ret {A} (a : A) : M A := fun tr => (Ok a, tr).

Definition raise {A} (e : exc) : M A := fun tr => (Raise e, tr).

Definition bind {A B} (m : M A) (k : A -> M B) : M B :=
  fun tr =>
    match m tr with
    | (Ok a, tr') => k a tr'
    | (Raise e, tr') => (Raise e, tr')
    end.

Definition emit (ev : event) : M unit := fun tr => (Ok tt, tr ++ [ev]).

Declare Scope py_scope.
Delimit Scope py_scope with py.
Notation "x <- m ;; k" := (bind m (fun x => k))
  (at level 100, m at next level, right associativity) : py_scope.
Notation "m ;; k" := (bind m (fun _ => k))
  (at level 100, right associativity) : py_scope.
Local Open Scope py_scope.

(** [try: body  except C1 as e: h1  except C2 as e: h2 ...]: the first
    clause whose class the exception is an instance of handles it; what a
    handler raises is not seen by its sibling clauses. *)
Definition try_except {A} (body : M A) (handlers : list (exc_class * (exc -> M A))) : M A :=
  fun tr =>
    match body tr with
    | (Ok a, tr') => (Ok a, tr')
    | (Raise e, tr') =>
        match List.find (fun h => isinstance e (fst h)) handlers with
        | Some h => snd h e tr'
        | None => (Raise e, tr')
        end
    end.

(** The events of one kind in a trace. *)
Definition sleeps (tr : trace) : list Z :=
  flat_map (fun ev => match ev with Sleep s => [s] | _ => [] end) tr.

Definition http_gets (tr : trace) : list str :=
  flat_map (fun ev => match ev with HttpGet u _ => [u] | _ => [] end) tr.

Definition completion_requests (tr : trace) : list str :=
  flat_map (fun ev => match ev with CompletionsCreate p => [p] | _ => [] end) tr.

(** ** tenacity: the [@retry] decorator as the two modules configure it *)
Module tenacity.

(** [wait_exponential(multiplier, min, max)] after attempt
    [attempt_number]. *)
Definition wait_exponential (multiplier min max attempt_number : Z) : Z :=
  Z.max (Z.max 0 min) (Z.min (multiplier * 2 ^ (attempt_number - 1)) max).

(** [retry_if_exception_type(types)] *)
Definition retry_if_exception_type (types : list exc_class) (e : exc) : bool :=
  existsb (isinstance e) types.

(** The attempts from number [attempt_number] on, [remaining] of them
    still allowed after it.  A result is returned; an exception the
    predicate rejects is raised at once; one it accepts is raised when the
    attempts are used up ([reraise=True]) and otherwise followed by a
    sleep and the next attempt. *)
Fixpoint attempts {A} (remaining : nat) (attempt_number : Z)
    (wait : Z -> Z) (retry_on : exc -> bool) (f : M A) : M A :=
  fun tr =>
    match f tr with
    | (Ok a, tr') => (Ok a, tr')
    | (Raise e, tr') =>
        if retry_on e then
          match remaining with
          | O => (Raise e, tr')
          | S k =>
              attempts k (attempt_number + 1) wait retry_on f
                (tr' ++ [Sleep (wait attempt_number)])
          end
        else (Raise e, tr')
    end.

(** [@retry(stop=stop_after_attempt(n), wait=..., retry=..., reraise=True)] *)
Definition retry {A} (stop_after_attempt : nat) (wait : Z -> Z)
    (retry_on : exc -> bool) (f : M A) : M A :=
  attempts (stop_after_attempt - 1) 1 wait retry_on f.

End tenacity.

(** ** The outside world

    What a run depends on and the source does not define: the URL parser,
    the network, the HTML parser, the environment and the completion
    endpoint.  A call either returns or raises. *)
Inductive outcome (A : Type) :=
| Returns (a : A)
| Raises (e : exc).
Arguments Returns {A} a.
Arguments Raises {A} e.

(** [requests.Response], as far as the source and [raise_for_status] read it. *)
Record Response := {
  status_code : Z;
  reason : str;
  response_url : str;
  response_text : str }.

(** The parsed page once the [REMOVE_TAGS] loop has run, as far as the
    source reads it: for a tag name, the [get_text(separator=' ',
    strip=True)] of every element [find_all] returns; the same text of the
    element [find('body')] returns, if there is one; and that of the whole
    document. *)
Record Soup := {
  find_all_text : str -> list str;
  body_text : option str;
  document_text : str }.

Record CompletionTokensDetails := { reasoning_tokens : Z }.

Record Usage := {
  completion_tokens : Z;
  completion_tokens_details : option CompletionTokensDetails }.

Record Choice := {
  content : option str;
  finish_reason : str }.

Record ChatCompletion := {
  choices : list Choice;
  usage : option Usage }.

(** [requests_get url k] answers the GET number [k] (from 0) of the run,
    [completions_create prompt k] the completion request number [k];
    [urlparse] gives the scheme and the network location. *)
Record World := {
  urlparse : str -> outcome (str * str);
  requests_get : str -> nat -> outcome Response;
  BeautifulSoup : str -> list str -> Soup;
  OPENAI_API_KEY : option str;
  completions_create : str -> nat -> outcome ChatCompletion }.

Section Program.

Variable W : World.

(** ** agent.py *)

Definition CONTENT_TAGS : list str :=
  [py "p"; py "h1"; py "h2"; py "h3"; py "h4"; py "h5"; py "h6"; py "li";
   py "article"; py "section"; py "div"; py "span"; py "main";
   py "blockquote"; py "td"; py "th"; py "dd"; py "dt"].

Definition REMOVE_TAGS : list str :=
  [py "script"; py "style"; py "nav"; py "header"; py "footer"; py "aside";
   py "noscript"].

(** [validate_url] (50-64) *)
Definition validate_url (url : str) : bool :=
  match urlparse W url with
  | Returns (scheme, netloc) => truthy scheme && truthy netloc
  | Raises _ => false
  end.

(** [requests.get(url, headers=headers, timeout=timeout)] *)
Definition get (url : str) (timeout : Z) : M Response :=
  fun tr =>
    let tr' := tr ++ [HttpGet url timeout] in
    match requests_get W url (length (http_gets tr)) with
    | Returns r => (Ok r, tr')
    | Raises e => (Raise e, tr')
    end.

(** [Response.raise_for_status] of requests: only 4xx and 5xx raise. *)
Definition http_error_msg (r : Response) : str :=
  if (400 <=? status_code r) && (status_code r <? 500) then
    str_of_int (status_code r) ++ py " Client Error: " ++ reason r
      ++ py " for url: " ++ response_url r
  else if (500 <=? status_code r) && (status_code r <? 600) then
    str_of_int (status_code r) ++ py " Server Error: " ++ reason r
      ++ py " for url: " ++ response_url r
  else [].

Definition raise_for_status (r : Response) : M unit :=
  if truthy (http_error_msg r) then raise (Exc HTTPError (http_error_msg r))
  else ret tt.

(** The [except] clauses of [fetch_html] (116-134).  The first one reads
    the local [response], which is unbound while [requests.get] has not
    returned. *)
Definition fetch_html_handlers {A} (response : option Response)
    : list (exc_class * (exc -> M A)) :=
  [ (HTTPError, fun e =>
       match response with
       | Some response =>
           raise (Exc HTTPError
                    (py "HTTP ошибка " ++ str_of_int (status_code response)
                       ++ py ": " ++ str_of_exc e))
       | None =>
           raise (Exc UnboundLocalError
                    (py "cannot access local variable 'response' where it is not associated with a value"))
       end);
    (Timeout, fun e =>
       raise (Exc Timeout (py "Таймаут при загрузке страницы: " ++ str_of_exc e)));
    (ConnectionError, fun e =>
       raise (Exc ConnectionError (py "Ошибка соединения: " ++ str_of_exc e)));
    (RequestException, fun e =>
       raise (Exc RequestException (py "Ошибка при запросе: " ++ str_of_exc e))) ].

(** One call of the body of [fetch_html] (94-134). *)
Definition fetch_html_call (url : str) (timeout : Z) : M str :=
  if negb (validate_url url) then
    raise (Exc ValueError (py "Невалидный URL: " ++ url))
  else
    response <- try_except (get url timeout) (fetch_html_handlers None) ;;
    try_except
      (raise_for_status response ;; ret (response_text response))
      (fetch_html_handlers (Some response)).

(** [fetch_html] under its decorator (67-77). *)
Definition fetch_html (url : str) (timeout : Z) : M str :=
  tenacity.retry 3 (tenacity.wait_exponential 1 2 10)
    (tenacity.retry_if_exception_type [Timeout; ConnectionError; RequestException])
    (fetch_html_call url timeout).

(** What one call of the body raises when the GET fails in a way the
    decorator retries: the status is 4xx or 5xx, or [requests.get] raises
    a timeout, a connection error or another [RequestException].  ([get]
    itself raising an [HTTPError] is not among them: the handler then
    finds [response] unbound.) *)
Inductive retried_failure : outcome Response -> exc -> Prop :=
| status_failure r :
    400 <= status_code r < 600 ->
    retried_failure (Returns r)
      (Exc HTTPError (py "HTTP ошибка " ++ str_of_int (status_code r)
                        ++ py ": " ++ http_error_msg r))
| timeout_failure e :
    isinstance e HTTPError = false -> isinstance e Timeout = true ->
    retried_failure (Raises e)
      (Exc Timeout (py "Таймаут при загрузке страницы: " ++ str_of_exc e))
| connection_failure e :
    isinstance e HTTPError = false -> isinstance e Timeout = false ->
    isinstance e ConnectionError = true ->
    retried_failure (Raises e)
      (Exc ConnectionError (py "Ошибка соединения: " ++ str_of_exc e))
| transport_failure e :
    isinstance e HTTPError = false -> isinstance e Timeout = false ->
    isinstance e ConnectionError = false ->
    isinstance e RequestException = true ->
    retried_failure (Raises e)
      (Exc RequestException (py "Ошибка при запросе: " ++ str_of_exc e)).

(** [re.sub(r'\s+', ' ', text)]; [in_run] tells that the previous
    character was whitespace. *)
Fixpoint sub_whitespace (in_run : bool) (text : str) : str :=
  match text with
  | [] => []
  | c :: text' =>
      if isspace c then
        if in_run then sub_whitespace true text'
        else space :: sub_whitespace true text'
      else c :: sub_whitespace false text'
  end.

(** [clean_text] (137-151) *)
Definition clean_text (text : str) : str := strip (sub_whitespace false text).

(** [t and len(t.strip()) > 0] *)
Definition has_text (t : str) : bool := truthy t && (0 <? len (strip t)).

(** Lines 184-216: the fragments of the content tags, else the text of
    the body, else that of the whole document. *)
Definition text_parts_of (soup : Soup) : list str :=
  let text_parts :=
    flat_map (fun tag_name => List.filter has_text (find_all_text soup tag_name))
             CONTENT_TAGS in
  match text_parts with
  | _ :: _ => text_parts
  | [] =>
      let text_parts :=
        match body_text soup with
        | Some body_text => if has_text body_text then [body_text] else []
        | None => []
        end in
      match text_parts with
      | _ :: _ => text_parts
      | [] => if has_text (document_text soup) then [document_text soup] else []
      end
  end.

(** Lines 238-242: the cut at [MAX_TEXT_LENGTH]. *)
Definition limit_length (cleaned_text : str) : str :=
  if MAX_TEXT_LENGTH <? len cleaned_text then
    nth 0 (rsplit1 space (slice_to MAX_TEXT_LENGTH cleaned_text)) [] ++ py "..."
  else cleaned_text.

(** [extract_text_from_url] (154-245) *)
Definition extract_text_from_url (url : str) : M str :=
  html_content <- fetch_html url 10 ;;
  let soup := BeautifulSoup W html_content REMOVE_TAGS in
  let text_parts := text_parts_of soup in
  let full_text :=
    match text_parts with
    | _ :: _ => join [space] text_parts
    | [] => []
    end in
  if negb (truthy full_text) || (len (strip full_text) =? 0) then
    raise (Exc ValueError
             (py "Не удалось извлечь текст из страницы. "
                ++ py "Возможно, контент загружается динамически через JavaScript."))
  else
    let cleaned_text := clean_text full_text in
    if negb (truthy cleaned_text) || (len (strip cleaned_text) =? 0) then
      raise (Exc ValueError (py "Текст стал пустым после очистки"))
    else ret (limit_length cleaned_text).

(** ** openai_module.py *)

(** Lines 30-44: the client exists when the key is set and non-empty. *)
Definition client_configured : bool :=
  match OPENAI_API_KEY W with
  | Some key => truthy key
  | None => false
  end.

(** [client.chat.completions.create(...)] with the user prompt [prompt]. *)
Definition create (prompt : str) : M ChatCompletion :=
  fun tr =>
    let tr' := tr ++ [CompletionsCreate prompt] in
    match completions_create W prompt (length (completion_requests tr)) with
    | Returns r => (Ok r, tr')
    | Raises e => (Raise e, tr')
    end.

(** Lines 82-87 *)
Definition prompt_of (text : str) : str :=
  py "Ты пользователь. Какие вопросы у тебя возникли после прочтения?" ++ [nl; nl]
    ++ py "Текст:" ++ [nl] ++ text ++ [nl; nl]
    ++ py "Сгенерируй ровно 5 содержательных вопросов, связанных с темой страницы. "
    ++ py "Каждый вопрос должен быть на отдельной строке, без нумерации и без дополнительных символов.".

(** Lines 120-126 *)
Definition empty_content_msg (finish_reason : str) (usage : option Usage) : str :=
  py "API вернул пустой контент. "
    ++ py "Finish reason: " ++ finish_reason ++ py ", "
    ++ py "Completion tokens: "
    ++ match usage with
       | Some u => str_of_int (completion_tokens u)
       | None => py "N/A"
       end ++ py ", "
    ++ py "Reasoning tokens: "
    ++ match usage with
       | Some u =>
           match completion_tokens_details u with
           | Some d => str_of_int (reasoning_tokens d)
           | None => py "N/A"
           end
       | None => py "N/A"
       end ++ py ". "
    ++ py "Увеличьте max_completion_tokens или используйте другую модель.".

(** [x is None or not x or not x.strip()] for an optional string *)
Definition blank (x : option str) : bool :=
  match x with
  | Some s => negb (truthy s) || negb (truthy (strip s))
  | None => true
  end.

(** One call of the body of [get_questions_from_text] (69-197). *)
Definition get_questions_from_text_call (text : str) : M (list str) :=
  if negb client_configured then
    raise (Exc ValueError (py "OpenAI API ключ не настроен. Проверьте .env файл."))
  else if blank (Some text) then
    raise (Exc ValueError (py "Текст не может быть пустым"))
  else
    try_except
      (response <- create (prompt_of text) ;;
       match choices response with
       | [] => raise (Exc ValueError (py "API вернул ответ без choices"))
       | choice :: _ =>
           let message_content := content choice in
           if blank message_content then
             raise (Exc ValueError
                      (empty_content_msg (finish_reason choice) (usage response)))
           else
             let result_text := strip (default [] message_content) in
             ret (parse_questions result_text)
       end)
      [ (RateLimitError, fun e =>
           raise (Exc Exception
                    (py "Превышен лимит запросов к OpenAI API: " ++ str_of_exc e)));
        (APIConnectionError, fun e =>
           raise (Exc Exception
                    (py "Ошибка соединения с OpenAI API: " ++ str_of_exc e)));
        (APITimeoutError, fun e =>
           raise (Exc Exception
                    (py "Таймаут при запросе к OpenAI API: " ++ str_of_exc e)));
        (APIError, fun e =>
           raise (Exc Exception (py "Ошибка OpenAI API: " ++ str_of_exc e)));
        (Exception, fun e =>
           raise (Exc Exception
                    (py "Неожиданная ошибка при работе с OpenAI API: "
                       ++ str_of_exc e))) ].

(** [get_questions_from_text] under its decorator (49-55). *)
Definition get_questions_from_text (text : str) : M (list str) :=
  tenacity.retry 3 (tenacity.wait_exponential 1 2 10)
    (tenacity.retry_if_exception_type [Exception])
    (get_questions_from_text_call text).

(** ** agent.py: the pipeline *)

(** Lines 335-338 *)
Definition insufficient_text_msg (text : str) : str :=
  py "Недостаточно текста на странице для генерации вопросов. "
    ++ py "Минимум: " ++ str_of_int MIN_TEXT_LENGTH
    ++ py " символов, получено: "
    ++ str_of_int (if truthy text then len (strip text) else 0).

(** [generate_questions_from_url] (293-380) *)
Definition generate_questions_from_url (url : str) : M (list str) :=
  try_except
    (text <-
       try_except (extract_text_from_url url)
         [ (ValueError, fun e =>
              raise (Exc ValueError
                       (py "Ошибка при извлечении текста: " ++ str_of_exc e)));
           (RequestException, fun e =>
              raise (Exc RequestException
                       (py "Сетевая ошибка при загрузке страницы: "
                          ++ str_of_exc e))) ] ;;
     if negb (truthy text) || (len (strip text) <? MIN_TEXT_LENGTH) then
       raise (Exc ValueError (insufficient_text_msg text))
     else
       let text :=
         if MAX_TEXT_LENGTH_FOR_OPENAI <? len text
         then smart_truncate_text text MAX_TEXT_LENGTH_FOR_OPENAI
         else text in
       try_except (get_questions_from_text text)
         [ (ValueError, fun e =>
              raise (Exc ValueError
                       (py "Ошибка валидации при работе с OpenAI API: "
                          ++ str_of_exc e)));
           (Exception, fun e =>
              raise (Exc Exception (py "Ошибка OpenAI API: " ++ str_of_exc e))) ])
    [ (ValueError, fun e => raise e);
      (RequestException, fun e => raise e);
      (Exception, fun e =>
         raise (Exc Exception
                  (py "Неожиданная ошибка при работе агента: " ++ str_of_exc e))) ].

(** ** main.py: the endpoint *)

(** [generate_questions] (92-181); the response body is its list. *)
Definition generate_questions (request_url : str) : M (list str) :=
  try_except
    (questions <- generate_questions_from_url request_url ;;
     match questions with
     | [] => raise (HTTPException_ 500 (py "Не удалось сгенерировать вопросы"))
     | _ :: _ => ret (take 5 questions)
     end)
    [ (ValueError, fun e => raise (HTTPException_ 400 (str_of_exc e)));
      (HTTPError, fun e =>
         raise (HTTPException_ 400
                  (py "HTTP ошибка при загрузке страницы: " ++ str_of_exc e)));
      (Timeout, fun e =>
         raise (HTTPException_ 408
                  (py "Таймаут при загрузке страницы: " ++ str_of_exc e)));
      (ConnectionError, fun e =>
         raise (HTTPException_ 503
                  (py "Ошибка соединения при загрузке страницы: " ++ str_of_exc e)));
      (RequestException, fun e =>
         raise (HTTPException_ 503
                  (py "Сетевая ошибка при загрузке страницы: " ++ str_of_exc e)));
      (Exception, fun e =>
         raise (HTTPException_ 500
                  (py "Ошибка при генерации вопросов: " ++ str_of_exc e))) ].

End Program.

Arguments py : simpl never.
Arguments str_of_int : simpl never.

(** ** Sample worlds

    A page at [sample_url] whose markup has the paragraphs [paragraphs]
    and nothing else; [answer k] is what the network gives to GET number
    [k], [key] the credential, [completion k] what the endpoint gives to
    request number [k]. *)
Definition sample_url : str := py "https://example.com/article".

Definition page_of (paragraphs : list str) : Soup :=
  {| find_all_text := fun tag_name => if str_eqb tag_name (py "p") then paragraphs else [];
     body_text := Some (join [space] paragraphs);
     document_text := join [space] paragraphs |}.

Definition world_of (answer : nat -> outcome Response) (paragraphs : list str)
    (key : option str) (completion : nat -> outcome ChatCompletion) : World :=
  {| urlparse := fun _ => Returns (py "https", py "example.com");
     requests_get := fun _ k => answer k;
     BeautifulSoup := fun _ _ => page_of paragraphs;
     OPENAI_API_KEY := key;
     completions_create := fun _ k => completion k |}.

Definition ok_response : Response :=
  {| status_code := 200; reason := py "OK"; response_url := sample_url;
     response_text := py "<html><body><p>...</p></body></html>" |}.

Definition not_found_response : Response :=
  {| status_code := 404; reason := py "Not Found"; response_url := sample_url;
     response_text := py "<html><body><p>not found</p></body></html>" |}.

Definition completion_of (text : str) : ChatCompletion :=
  {| choices := [ {| content := Some text; finish_reason := py "stop" |} ];
     usage := Some {| completion_tokens := 60; completion_tokens_details := None |} |}.

(** The response of the specification's parsing example. *)
Definition five_marked_lines : str :=
  lines_text [py "1. What is X?"; py "2. Why Y?"; py "- How Z?"; py "* When?"; py "• Who?"].

Definition four_lines : str :=
  lines_text [py "What is X?"; py "Why Y?"; py "How Z?"; py "When?"].

(** A paragraph of 60 characters, and one of 30. *)
Definition paragraph_60 : str :=
  py "The quick brown fox jumps over the lazy dog, again and again".

Definition paragraph_30 : str := py "Thirty characters of page text".

(** Every GET is answered 404. *)
Definition world_404 : World :=
  world_of (fun _ => Returns not_found_response) [paragraph_60] (Some (py "sk-test"))
           (fun _ => Returns (completion_of five_marked_lines)).

(** Every GET times out while reading. *)
Definition world_timeout : World :=
  world_of (fun _ => Raises (Exc ReadTimeout (py "Read timed out. (read timeout=10)")))
           [paragraph_60] (Some (py "sk-test"))
           (fun _ => Returns (completion_of five_marked_lines)).

(** No credential in the environment. *)
Definition world_no_key : World :=
  world_of (fun _ => Returns ok_response) [paragraph_60] None
           (fun _ => Returns (completion_of five_marked_lines)).

(** A page of 30 characters. *)
Definition world_short_page : World :=
  world_of (fun _ => Returns ok_response) [paragraph_30] (Some (py "sk-test"))
           (fun _ => Returns (completion_of five_marked_lines)).

(** A page of 12,000 characters in words of nine letters, and a completion
    of four lines. *)
Definition long_paragraph : str :=
  join [space] (repeat (letters 9) 1200).

Definition world_long_page : World :=
  world_of (fun _ => Returns ok_response) [long_paragraph] (Some (py "sk-test"))
           (fun _ => Returns (completion_of four_lines)).

(** All as it should be. *)
Definition world_fine : World :=
  world_of (fun _ => Returns ok_response) [paragraph_60] (Some (py "sk-test"))
           (fun _ => Returns (completion_of five_marked_lines)).

(** ** Vocabulary of the further properties *)

(** Whitespace in [s] is the space character only and never twice in a
    row; [prev_space] tells that a space precedes [s]. *)
Fixpoint single_spaced (prev_space : bool) (s : str) : bool :=
  match s with
  | [] => true
  | c :: s' =>
      if isspace c then (c =? space)%N && negb prev_space && single_spaced true s'
      else single_spaced false s'
  end.

(** Lines 222-225 of agent.py: the message of the failure for a page
    without text. *)
Definition no_text_msg : str :=
  py "Не удалось извлечь текст из страницы. "
    ++ py "Возможно, контент загружается динамически через JavaScript.".

(** The URL parser finds no scheme in the string. *)
Definition world_bad_url : World :=
  {| urlparse := fun _ => Returns ([], py "example.com/article");
     requests_get := fun _ _ => Returns ok_response;
     BeautifulSoup := fun _ _ => page_of [paragraph_60];
     OPENAI_API_KEY := Some (py "sk-test");
     completions_create := fun _ _ => Returns (completion_of five_marked_lines) |}.

(** Two connection failures, then the page. *)
Definition world_flaky : World :=
  world_of (fun k => match k with
                     | O | S O => Raises (Exc ConnectionError (py "Connection aborted."))
                     | _ => Returns ok_response
                     end)
           [paragraph_60] (Some (py "sk-test"))
           (fun _ => Returns (completion_of five_marked_lines)).


(** The completion endpoint is rate limited at every request. *)
Definition world_rate_limited : World :=
  world_of (fun _ => Returns ok_response) [paragraph_60] (Some (py "sk-test"))
           (fun _ => Raises (Exc RateLimitError (py "Error code: 429"))).


(** ** agent.py: the command line (383-452)

    What a run of [main] leaves behind: the exit status, the arguments of
    the calls of [print] to the standard output and to the standard
    error, in order, and the text written to questions.txt when the
    writing went through.  [write name content] is the file system: it
    answers [None], or [Some message] when opening or writing the file
    raises an [IOError] with that message. *)
Record Terminal := {
  exit_code : Z;
  stdout : list str;
  stderr : list str;
  written : option str }.

(** [f'{i}. {question}'] for [i, question in enumerate(questions, i)] *)
Fixpoint numbered (i : Z) (questions : list str) : list str :=
  match questions with
  | [] => []
  | question :: rest => (str_of_int i ++ py ". " ++ question) :: numbered (i + 1) rest
  end.

(** ['=' * 50] *)
Definition rule : str := repeat 61%N 50.

(** The heading the [except] clauses of [main] (424-452) print before
    the message of the exception. *)
Definition main_heading (e : exc) : str :=
  if isinstance e ValueError then py "Ошибка: "
  else if isinstance e HTTPError then py "HTTP ошибка: "
  else if isinstance e Timeout then py "Таймаут при загрузке страницы: "
  else if isinstance e ConnectionError then py "Ошибка соединения: "
  else if isinstance e RequestException then py "Сетевая ошибка: "
  else py "Ошибка OpenAI API: ".

(** [main] for the command line argument [url]. *)
Definition main (W : World) (write : str -> str -> option str) (url : str)
    : trace -> Terminal * trace :=
  fun tr =>
    match generate_questions_from_url W url tr with
    | (Ok questions, tr') =>
        let printed :=
          [nl :: py "Сгенерированные вопросы:"; rule]
            ++ numbered 1 questions ++ [rule] in
        let content := concat (map (fun line => line ++ [nl]) (numbered 1 questions)) in
        match write (py "questions.txt") content with
        | None =>
            ({| exit_code := 0;
                stdout := printed
                            ++ [nl :: py "Вопросы сохранены в файл: " ++ py "questions.txt"];
                stderr := [];
                written := Some content |}, tr')
        | Some message =>
            ({| exit_code := 0;
                stdout := printed;
                stderr := [py "Ошибка при сохранении в файл: " ++ message];
                written := None |}, tr')
        end
    | (Raise e, tr') =>
        ({| exit_code := 1;
            stdout := [];
            stderr := [main_heading e ++ str_of_exc e];
            written := None |}, tr')
    end.

(** ** test_openai_module.py *)




(** A response that is neither a success nor an error status. *)
Definition not_modified_response : Response :=
  {| status_code := 304; reason := py "Not Modified"; response_url := sample_url;
     response_text := [] |}.

Definition world_not_modified : World :=
  world_of (fun _ => Returns not_modified_response) [paragraph_60] (Some (py "sk-test"))
           (fun _ => Returns (completion_of five_marked_lines)).

(** The file system takes every file, or refuses every file. *)
Definition write_ok : str -> str -> option str := fun _ _ => None.


(** * Properties *)

Example py_ascii : py "a.b" = [97; 46; 98]%N.
Proof. reflexivity. Qed.

Example py_bullet : py "•" = [8226]%N.
Proof. reflexivity. Qed.

Example py_fullwidth : py "。！？" = [12290; 65281; 65311]%N.
Proof. reflexivity. Qed.

Example py_cyrillic : py "Минимум" = [1052; 1080; 1085; 1080; 1084; 1091; 1084]%N.
Proof. reflexivity. Qed.

Example str_of_int_50 : str_of_int 50 = py "50".
Proof. reflexivity. Qed.

Example str_of_int_neg : str_of_int (-7) = py "-7".
Proof. reflexivity. Qed.

Example strip_ex : strip (py "  a b" ++ [nl; space]) = py "a b".
Proof. reflexivity. Qed.

Example split_ex :
  split nl (py "a" ++ [nl] ++ py "b" ++ [nl; nl] ++ py "c") = [py "a"; py "b"; []; py "c"].
Proof. reflexivity. Qed.

Example split1_ex : split1 46%N (py "10. a.b") = [py "10"; py " a.b"].
Proof. reflexivity. Qed.

Example rsplit1_ex : rsplit1 32%N (py "ab cd ef") = [py "ab cd"; py "ef"].
Proof. reflexivity. Qed.

Example rfind_ex : rfind 46%N (py "a.b.c") = 3 /\ rfind 33%N (py "a.b.c") = -1.
Proof. split; reflexivity. Qed.

Example slice_neg : slice_to (-1) (py "abc") = py "ab" /\ slice_to (-5) (py "abc") = [].
Proof. split; reflexivity. Qed.

Example mant_07_nearest :
  2 ^ 52 <= Float.mant_07 < 2 ^ 53 /\ Z.abs (10 * Float.mant_07 - 7 * 2 ^ 53) < 5.
Proof. vm_compute. split; [split; [discriminate | reflexivity] | reflexivity]. Qed.

Example mul_07_8000 : Float.mul_07 8000 = 5600 * 2 ^ 53.
Proof. reflexivity. Qed.

Example mul_07_10 : Float.mul_07 10 = 7 * 2 ^ 53.
Proof. reflexivity. Qed.

(** [90 * 0.7] is 62.99999999999999 in binary64, below 63. *)
Example mul_07_90 : Float.mul_07 90 = 63 * 2 ^ 53 - 2 ^ 6.
Proof. reflexivity. Qed.

(** A period at 7,500 in 9,000 characters, cap 8,000: cut after it. *)
Example truncate_9000 :
  smart_truncate_text (letters 7500 ++ py "." ++ letters 1499) 8000
  = letters 7500 ++ py ".".
Proof. vm_compute. reflexivity. Qed.

Example truncate_word :
  smart_truncate_text (py "aaaa bbbb cccc dddd") 10 = py "aaaa bbbb".
Proof. reflexivity. Qed.

Example truncate_hard :
  smart_truncate_text (py "aaaabbbbccccdddd") 10 = py "aaaabbbbcc".
Proof. reflexivity. Qed.


(** ** Strings: what [rfind] and the slices return *)

Lemma len_nonneg (s : str) : 0 <= len s.
Proof. unfold len. lia. Qed.

Lemma slice_to_prefix k (s : str) : slice_to k s `prefix_of` s.
Proof. unfold slice_to. destruct (k <? 0); apply prefix_take. Qed.

Lemma len_slice_to k (s : str) : 0 <= k -> k <= len s -> len (slice_to k s) = k.
Proof.
  intros H0 H1. unfold slice_to, len in *.
  destruct (Z.ltb_spec k 0) as [|_]; [lia|].
  rewrite length_take. lia.
Qed.

Lemma slice_to_lookup k (s : str) (j : nat) :
  0 <= k -> Z.of_nat j < k -> slice_to k s !! j = s !! j.
Proof.
  intros H0 H1. unfold slice_to.
  destruct (Z.ltb_spec k 0) as [|_]; [lia|].
  apply lookup_take_lt. lia.
Qed.

Lemma rfind_from_spec c (s : str) : forall i last, last < i ->
  (rfind_from c s i last = last /\ forall j, s !! j <> Some c) \/
  (i <= rfind_from c s i last < i + len s
   /\ s !! Z.to_nat (rfind_from c s i last - i) = Some c
   /\ forall j, s !! j = Some c -> i + Z.of_nat j <= rfind_from c s i last).
Proof.
  induction s as [|x s IH]; intros i last Hlt; simpl.
  - left. split; [reflexivity | intros j; rewrite lookup_nil; discriminate].
  - unfold len in *. simpl length.
    destruct (N.eqb_spec x c) as [->|Hne].
    + destruct (IH (i + 1) i ltac:(lia)) as [[Hr Hnone] | (Hr & Hat & Hmax)].
      * right. rewrite Hr. split; [lia|]. split.
        -- replace (i - i) with 0 by lia. reflexivity.
        -- intros [|j] Hj; [lia | exfalso; exact (Hnone j Hj)].
      * right. split; [lia|]. split.
        -- replace (Z.to_nat (rfind_from c s (i + 1) i - i))
             with (S (Z.to_nat (rfind_from c s (i + 1) i - (i + 1)))) by lia.
           exact Hat.
        -- intros [|j] Hj; [lia|]. specialize (Hmax j Hj). lia.
    + destruct (IH (i + 1) last ltac:(lia)) as [[Hr Hnone] | (Hr & Hat & Hmax)].
      * left. split; [exact Hr|].
        intros [|j] Hj; [simpl in Hj; congruence | exact (Hnone j Hj)].
      * right. split; [lia|]. split.
        -- replace (Z.to_nat (rfind_from c s (i + 1) last - i))
             with (S (Z.to_nat (rfind_from c s (i + 1) last - (i + 1)))) by lia.
           exact Hat.
        -- intros [|j] Hj; [simpl in Hj; congruence|]. specialize (Hmax j Hj). lia.
Qed.

(** [rfind] is -1 when the character is absent, and otherwise the highest
    index that holds it. *)
Lemma rfind_spec c (s : str) :
  (rfind c s = -1 /\ forall j, s !! j <> Some c) \/
  (0 <= rfind c s < len s
   /\ s !! Z.to_nat (rfind c s) = Some c
   /\ forall j, s !! j = Some c -> Z.of_nat j <= rfind c s).
Proof.
  unfold rfind.
  destruct (rfind_from_spec c s 0 (-1) ltac:(lia)) as [H | (Hr & Hat & Hmax)].
  - left. exact H.
  - right. split; [lia|]. split.
    + rewrite Z.sub_0_r in Hat. exact Hat.
    + intros j Hj. specialize (Hmax j Hj). lia.
Qed.

Lemma rfind_lt_len c (s : str) : -1 <= rfind c s < len s.
Proof.
  pose proof (len_nonneg s).
  destruct (rfind_spec c s) as [[-> _] | (H1 & _)]; lia.
Qed.

Lemma truthy_app_l (x y : str) : truthy x = true -> truthy (x ++ y) = true.
Proof. destruct x; [discriminate | reflexivity]. Qed.

Lemma truthy_app_r (x y : str) : truthy y = true -> truthy (x ++ y) = true.
Proof. destruct x; [trivial | reflexivity]. Qed.

Lemma truthy_false (x : str) : truthy x = false <-> x = [].
Proof. destruct x; split; intros H; first [reflexivity | discriminate]. Qed.

(** ** Float: sign and monotonicity of the threshold *)

Lemma round53_nonneg m : 0 <= m -> 0 <= Float.round53 m.
Proof.
  intros Hm. unfold Float.round53.
  destruct (Z.log2 m + 1 <=? 53); [exact Hm|].
  apply Z.shiftl_nonneg.
  assert (0 <= Z.shiftr m (Z.log2 m + 1 - 53)) by (apply Z.shiftr_nonneg; exact Hm).
  destruct (_ || _); lia.
Qed.

Lemma mul_07_nonneg n : 0 <= n -> 0 <= Float.mul_07 n.
Proof.
  intros Hn. unfold Float.mul_07.
  assert (0 <= Float.round53 (Float.round53 (Z.abs n) * Float.mant_07)).
  { apply round53_nonneg. apply Z.mul_nonneg_nonneg.
    - apply round53_nonneg. lia.
    - unfold Float.mant_07. lia. }
  destruct (Z.sgn_spec n) as [[? ->] | [[? ->] | [? ->]]]; lia.
Qed.

Lemma gt_mul_07_mono p q n :
  Float.gt_mul_07 p n = true -> p <= q -> Float.gt_mul_07 q n = true.
Proof.
  unfold Float.gt_mul_07. rewrite !Z.ltb_lt. intros H Hpq.
  assert (p * 2 ^ 53 <= q * 2 ^ 53) by (apply Z.mul_le_mono_nonneg_r; lia).
  lia.
Qed.

Lemma gt_mul_07_pos p n : 0 <= n -> Float.gt_mul_07 p n = true -> 0 < p.
Proof.
  unfold Float.gt_mul_07. rewrite Z.ltb_lt. intros Hn H.
  pose proof (mul_07_nonneg n Hn). lia.
Qed.

(** ** The smart truncator *)

Section Truncator.

Variables (text : str) (max_length : Z).

Let truncated : str := slice_to max_length text.

Let step (last : Z) (ending : char) : Z :=
  let pos := rfind ending truncated in
  if Float.gt_mul_07 pos max_length then Z.max last pos else last.

(** The loop over the delimiters keeps the highest [rfind] that falls in
    the window. *)
Lemma last_sentence_end_spec (endings : list char) : forall acc,
  (fold_left step endings acc = acc
   \/ exists e, e ∈ endings /\ fold_left step endings acc = rfind e truncated
                /\ Float.gt_mul_07 (rfind e truncated) max_length = true)
  /\ acc <= fold_left step endings acc
  /\ forall e, e ∈ endings ->
       Float.gt_mul_07 (rfind e truncated) max_length = true ->
       rfind e truncated <= fold_left step endings acc.
Proof.
  induction endings as [|e es IH]; intros acc; simpl.
  - split; [left; reflexivity|]. split; [lia|]. intros e He. inversion He.
  - destruct (IH (step acc e)) as (Hval & Hle & Hmax).
    assert (Hstep : (step acc e = acc) \/
                    (step acc e = rfind e truncated
                     /\ Float.gt_mul_07 (rfind e truncated) max_length = true)).
    { unfold step. destruct (Float.gt_mul_07 _ _) eqn:G; [|left; reflexivity].
      destruct (Z.max_spec acc (rfind e truncated)) as [[_ ->] | [_ ->]];
        [right; split; reflexivity | left; reflexivity]. }
    assert (Hacc : acc <= step acc e).
    { unfold step. destruct (Float.gt_mul_07 _ _); lia. }
    split; [|split].
    + destruct Hval as [Hv | (e' & He' & Hv & G)].
      * destruct Hstep as [Hs | [Hs G]].
        -- left. congruence.
        -- right. exists e. split; [apply elem_of_cons; left; reflexivity|]. split; [congruence | exact G].
      * right. exists e'. split; [apply elem_of_cons; right; exact He' | split; assumption].
    + lia.
    + intros e0 He0 G. apply elem_of_cons in He0 as [-> | He0].
      * assert (rfind e truncated <= step acc e).
        { unfold step. rewrite G. lia. }
        lia.
      * apply Hmax; assumption.
Qed.

Hypothesis cap_nonneg : 0 <= max_length.
Hypothesis too_long : max_length < len text.

Lemma len_truncated : len truncated = max_length.
Proof. apply len_slice_to; lia. Qed.

Lemma truncated_lookup (q : Z) :
  0 <= q < max_length -> truncated !! Z.to_nat q = text !! Z.to_nat q.
Proof. intros Hq. apply slice_to_lookup; lia. Qed.

(** An occurrence in the window puts [rfind] in the window, at or after it. *)
Lemma rfind_reaches (c : char) (q : Z) :
  in_window max_length q -> 0 <= q -> text !! Z.to_nat q = Some c ->
  q <= rfind c truncated /\ Float.gt_mul_07 (rfind c truncated) max_length = true.
Proof.
  intros [G Hlt] H0 Hat.
  rewrite <- truncated_lookup in Hat by lia.
  destruct (rfind_spec c truncated) as [[_ Hnone] | (_ & _ & Hmax)].
  - exfalso. exact (Hnone _ Hat).
  - specialize (Hmax _ Hat). rewrite Z2Nat.id in Hmax by lia.
    split; [exact Hmax | exact (gt_mul_07_mono _ _ _ G Hmax)].
Qed.

(** An [rfind] that lies in the window is the rightmost occurrence there. *)
Lemma rfind_rightmost (c : char) (P : char -> Prop) :
  P c -> Float.gt_mul_07 (rfind c truncated) max_length = true ->
  (forall c' q, P c' -> in_window max_length q -> 0 <= q ->
                text !! Z.to_nat q = Some c' -> q <= rfind c truncated) ->
  0 < rfind c truncated < max_length /\
  rightmost_in_window P text max_length (rfind c truncated).
Proof.
  intros Pc G Hmax.
  pose proof (gt_mul_07_pos _ _ cap_nonneg G) as Hpos.
  destruct (rfind_spec c truncated) as [[Hr _] | (Hr & Hat & _)]; [lia|].
  rewrite len_truncated in Hr.
  rewrite truncated_lookup in Hat by lia.
  split; [lia|]. split; [split; [exact G | lia]|]. split.
  - split; [lia|]. exists c. split; assumption.
  - intros q Hq (H0 & c' & Hc' & Pc'). eapply Hmax; eassumption.
Qed.

End Truncator.

(** The three ways a text longer than the cap is cut. *)
Lemma smart_truncate_text_long (text : str) (max_length : Z) :
  0 <= max_length -> max_length < len text ->
  (exists p, 0 < p < max_length
     /\ rightmost_in_window is_sentence_ending text max_length p
     /\ smart_truncate_text text max_length = slice_to (p + 1) text)
  \/ (none_in_window is_sentence_ending text max_length
      /\ exists p, 0 < p < max_length
           /\ rightmost_in_window is_space text max_length p
           /\ smart_truncate_text text max_length = slice_to p text)
  \/ (none_in_window is_sentence_ending text max_length
      /\ none_in_window is_space text max_length
      /\ smart_truncate_text text max_length = slice_to max_length text).
Proof.
  intros Hn Hlong. unfold smart_truncate_text.
  destruct (Z.leb_spec (len text) max_length) as [|_]; [lia|].
  destruct (last_sentence_end_spec text max_length sentence_endings (-1))
    as (Hval & Hle & Hmax).
  cbv zeta in *.
  set (lse := fold_left _ sentence_endings (-1)) in *.
  destruct (Z.ltb_spec 0 lse) as [Hpos | Hnpos].
  - left. destruct Hval as [Hv | (e & He & Hv & G)]; [lia|].
    destruct (rfind_rightmost text max_length Hn Hlong e is_sentence_ending He G)
      as [Hr Hright].
    { intros c' q Pc' Hq H0 Hat.
      destruct (rfind_reaches text max_length Hn c' q Hq H0 Hat) as [Hq' G'].
      specialize (Hmax c' Pc' G'). lia. }
    exists lse. rewrite Hv. auto.
  - assert (Hnone : none_in_window is_sentence_ending text max_length).
    { intros q Hq (H0 & c & Hat & Pc).
      destruct (rfind_reaches text max_length Hn c q Hq H0 Hat) as [Hq' G'].
      specialize (Hmax c Pc G').
      pose proof (gt_mul_07_pos _ _ Hn (proj1 Hq)). lia. }
    right. destruct (Float.gt_mul_07 (rfind space _) max_length) eqn:G.
    + left. split; [exact Hnone|].
      destruct (rfind_rightmost text max_length Hn Hlong space is_space eq_refl G)
        as [Hr Hright].
      { intros c' q -> Hq H0 Hat.
        exact (proj1 (rfind_reaches text max_length Hn _ q Hq H0 Hat)). }
      eauto.
    + right. split; [exact Hnone|]. split; [|reflexivity].
      intros q Hq (H0 & c & Hat & ->).
      destruct (rfind_reaches text max_length Hn _ q Hq H0 Hat) as [_ G'].
      congruence.
Qed.

(** The three ways exclude one another: a window that holds a rightmost
    occurrence does not hold none. *)
Lemma rightmost_excludes_none (P : char -> Prop) (text : str) (max_length p : Z) :
  rightmost_in_window P text max_length p -> ~ none_in_window P text max_length.
Proof. intros (Hw & Hat & _) Hnone. exact (Hnone p Hw Hat). Qed.

(** The result never exceeds a non-negative cap. *)
Lemma smart_truncate_text_len (text : str) (max_length : Z) :
  0 <= max_length -> len (smart_truncate_text text max_length) <= max_length.
Proof.
  intros Hn.
  destruct (Z.le_gt_cases (len text) max_length) as [Hshort | Hlong].
  - unfold smart_truncate_text.
    destruct (Z.leb_spec (len text) max_length); [assumption | lia].
  - destruct (smart_truncate_text_long text max_length Hn Hlong)
      as [(p & Hp & _ & ->) | [(_ & p & Hp & _ & ->) | (_ & _ & ->)]];
      rewrite len_slice_to; lia.
Qed.

(** Whatever the cap, the result is a prefix of the text. *)
Lemma smart_truncate_text_prefix_of (text : str) (max_length : Z) :
  smart_truncate_text text max_length `prefix_of` text.
Proof.
  unfold smart_truncate_text.
  repeat match goal with
         | |- context [if ?b then _ else _] => destruct b
         end; first [reflexivity | apply slice_to_prefix].
Qed.

(** ** Parsing of the completion text *)

Example isdigit_ex :
  isdigit 49%N = true /\ isdigit 97%N = false /\ isdigit 1637%N = true.
Proof. repeat split; reflexivity. Qed.

Example clean_line_numbered : clean_line (py "10. Why?") = py "Why?".
Proof. reflexivity. Qed.

Example clean_line_no_period : clean_line (py "3 reasons why") = py "3 reasons why".
Proof. reflexivity. Qed.

Example clean_line_marker : clean_line (py "•  Who?") = py "Who?".
Proof. reflexivity. Qed.

(** Four usable lines: the second parse runs and the four are returned. *)
Example parse_four :
  parse_questions (lines_text [py "1. One?"; py "2. Two?"; py "3. Three?"; py "4. Four?"])
  = [py "One?"; py "Two?"; py "Three?"; py "Four?"].
Proof. reflexivity. Qed.

Example parse_six :
  parse_questions (lines_text [py "aaaa"; py "bbbb"; py "cccc"; py "dddd"; py "eeee"; py "ffff"])
  = [py "aaaa"; py "bbbb"; py "cccc"; py "dddd"; py "eeee"].
Proof. reflexivity. Qed.

(** ** Sample runs *)

Example len_paragraphs : len paragraph_60 = 60 /\ len paragraph_30 = 30.
Proof. split; reflexivity. Qed.

Example run_fine :
  generate_questions world_fine sample_url []
  = (Ok [py "What is X?"; py "Why Y?"; py "How Z?"; py "When?"; py "Who?"],
     [HttpGet sample_url 10; CompletionsCreate (prompt_of paragraph_60)]).
Proof. vm_compute. reflexivity. Qed.

Example run_long_page_sizes :
  len long_paragraph = 11999 /\
  len (limit_length (clean_text long_paragraph)) = 10002.
Proof. split; vm_compute; reflexivity. Qed.

(** ** Computations: how [bind], [try_except] and the decorator run *)

Lemma bind_ok {A B} (m : M A) (k : A -> M B) tr a tr' :
  m tr = (Ok a, tr') -> bind m k tr = k a tr'.
Proof. intros H. unfold bind. rewrite H. reflexivity. Qed.

Lemma bind_raise {A B} (m : M A) (k : A -> M B) tr e tr' :
  m tr = (Raise e, tr') -> bind m k tr = (Raise e, tr').
Proof. intros H. unfold bind. rewrite H. reflexivity. Qed.

Lemma try_except_ok {A} (body : M A) handlers tr a tr' :
  body tr = (Ok a, tr') -> try_except body handlers tr = (Ok a, tr').
Proof. intros H. unfold try_except. rewrite H. reflexivity. Qed.

Lemma try_except_caught {A} (body : M A) handlers tr e tr' h :
  body tr = (Raise e, tr') ->
  List.find (fun h => isinstance e (fst h)) handlers = Some h ->
  try_except body handlers tr = snd h e tr'.
Proof. intros H F. unfold try_except. rewrite H, F. reflexivity. Qed.

Lemma try_except_passed {A} (body : M A) handlers tr e tr' :
  body tr = (Raise e, tr') ->
  List.find (fun h => isinstance e (fst h)) handlers = None ->
  try_except body handlers tr = (Raise e, tr').
Proof. intros H F. unfold try_except. rewrite H, F. reflexivity. Qed.

Lemma http_gets_app tr1 tr2 : http_gets (tr1 ++ tr2) = http_gets tr1 ++ http_gets tr2.
Proof. unfold http_gets. apply flat_map_app. Qed.

Lemma completion_requests_app tr1 tr2 :
  completion_requests (tr1 ++ tr2) = completion_requests tr1 ++ completion_requests tr2.
Proof. unfold completion_requests. apply flat_map_app. Qed.

Lemma sleeps_app tr1 tr2 : sleeps (tr1 ++ tr2) = sleeps tr1 ++ sleeps tr2.
Proof. unfold sleeps. apply flat_map_app. Qed.

Section Retry.

Context {A : Type} (retry_on : exc -> bool) (f : M A).

Let wait := tenacity.wait_exponential 1 2 10.

(** The waits of the policy: 2 seconds after the first attempt and 2
    after the second (the exponential, 1 and 2, is floored at [min]). *)
Lemma wait_exponential_values : wait 1 = 2 /\ wait 2 = 2 /\ wait 3 = 4 /\ wait 5 = 10.
Proof. repeat split; reflexivity. Qed.

Lemma retry_returns n tr a tr' :
  f tr = (Ok a, tr') -> tenacity.retry n wait retry_on f tr = (Ok a, tr').
Proof.
  intros H. unfold tenacity.retry. destruct (n - 1)%nat; simpl; rewrite H; reflexivity.
Qed.

(** An exception outside the predicate ends the call at once. *)
Lemma retry_not_retried n tr e tr' :
  f tr = (Raise e, tr') -> retry_on e = false ->
  tenacity.retry n wait retry_on f tr = (Raise e, tr').
Proof.
  intros H He. unfold tenacity.retry.
  destruct (n - 1)%nat; simpl; rewrite H, He; reflexivity.
Qed.

Lemma retry3_second_returns tr e1 tr1 a tr2 :
  f tr = (Raise e1, tr1) -> retry_on e1 = true ->
  f (tr1 ++ [Sleep 2]) = (Ok a, tr2) ->
  tenacity.retry 3 wait retry_on f tr = (Ok a, tr2).
Proof.
  intros H1 R1 H2. unfold tenacity.retry. simpl.
  rewrite H1, R1. change (wait 1) with 2. rewrite H2. reflexivity.
Qed.

Lemma retry3_third_returns tr e1 tr1 e2 tr2 a tr3 :
  f tr = (Raise e1, tr1) -> retry_on e1 = true ->
  f (tr1 ++ [Sleep 2]) = (Raise e2, tr2) -> retry_on e2 = true ->
  f (tr2 ++ [Sleep 2]) = (Ok a, tr3) ->
  tenacity.retry 3 wait retry_on f tr = (Ok a, tr3).
Proof.
  intros H1 R1 H2 R2 H3. unfold tenacity.retry. simpl.
  rewrite H1, R1. change (wait 1) with 2. rewrite H2, R2.
  change (wait (1 + 1)) with 2. rewrite H3. reflexivity.
Qed.

(** Three failures in a row: the third is raised, no fourth attempt. *)
Lemma retry3_exhausted tr e1 tr1 e2 tr2 e3 tr3 :
  f tr = (Raise e1, tr1) -> retry_on e1 = true ->
  f (tr1 ++ [Sleep 2]) = (Raise e2, tr2) -> retry_on e2 = true ->
  f (tr2 ++ [Sleep 2]) = (Raise e3, tr3) ->
  tenacity.retry 3 wait retry_on f tr = (Raise e3, tr3).
Proof.
  intros H1 R1 H2 R2 H3. unfold tenacity.retry. simpl.
  rewrite H1, R1. change (wait 1) with 2. rewrite H2, R2.
  change (wait (1 + 1)) with 2. rewrite H3.
  destruct (retry_on e3); reflexivity.
Qed.

(** What the decorated function returns, one of its calls returned. *)
Lemma attempts_returns_inv n k tr a tr' :
  tenacity.attempts n k wait retry_on f tr = (Ok a, tr') ->
  exists tr0, f tr0 = (Ok a, tr').
Proof.
  revert k tr. induction n as [|n IH]; intros k tr; simpl.
  - destruct (f tr) as [[a0|e] tr1] eqn:H.
    + intros [= <- <-]. eauto.
    + destruct (retry_on e); discriminate.
  - destruct (f tr) as [[a0|e] tr1] eqn:H.
    + intros [= <- <-]. eauto.
    + destruct (retry_on e); [apply IH | discriminate].
Qed.

End Retry.

(** ** The fetcher *)

Section Fetcher.

Variable W : World.
Variables (url : str) (timeout : Z).
Hypothesis valid : validate_url W url = true.

Lemma http_error_msg_truthy r :
  400 <= status_code r < 600 -> truthy (http_error_msg r) = true.
Proof.
  intros Hs. unfold http_error_msg.
  destruct (Z.leb_spec 400 (status_code r)); [|lia].
  destruct (Z.ltb_spec (status_code r) 500); cbv [andb].
  - apply truthy_app_r, truthy_app_l. reflexivity.
  - destruct (Z.leb_spec 500 (status_code r)); [|lia].
    destruct (Z.ltb_spec (status_code r) 600); [|lia].
    apply truthy_app_r, truthy_app_l. reflexivity.
Qed.

(** One call whose GET fails in a retried way: what it raises, after that
    one GET, and that the decorator's predicate accepts it. *)
Lemma fetch_html_call_failure tr o e :
  requests_get W url (length (http_gets tr)) = o -> retried_failure o e ->
  fetch_html_call W url timeout tr = (Raise e, tr ++ [HttpGet url timeout])
  /\ tenacity.retry_if_exception_type [Timeout; ConnectionError; RequestException] e = true.
Proof.
  intros Ho Hf. unfold fetch_html_call. rewrite valid. cbn [negb].
  destruct Hf as [r Hs | e He1 He2 | e He1 He2 He3 | e He1 He2 He3 He4].
  - split; [|reflexivity].
    assert (Hget : get W url timeout tr = (Ok r, tr ++ [HttpGet url timeout])).
    { unfold get. rewrite Ho. reflexivity. }
    erewrite bind_ok; [|apply try_except_ok; exact Hget].
    unfold try_except, bind, raise_for_status.
    rewrite (http_error_msg_truthy r Hs). reflexivity.
  - split.
    + erewrite bind_raise; [reflexivity|].
      unfold try_except, get. rewrite Ho. simpl. rewrite He1, He2. reflexivity.
    + reflexivity.
  - split.
    + erewrite bind_raise; [reflexivity|].
      unfold try_except, get. rewrite Ho. simpl. rewrite He1, He2, He3. reflexivity.
    + reflexivity.
  - split.
    + erewrite bind_raise; [reflexivity|].
      unfold try_except, get. rewrite Ho. simpl. rewrite He1, He2, He3, He4. reflexivity.
    + reflexivity.
Qed.

Lemma fetch_html_call_returns tr r :
  requests_get W url (length (http_gets tr)) = Returns r ->
  ~ 400 <= status_code r < 600 ->
  fetch_html_call W url timeout tr = (Ok (response_text r), tr ++ [HttpGet url timeout]).
Proof.
  intros Ho Hs. unfold fetch_html_call. rewrite valid. cbn [negb].
  assert (Hget : get W url timeout tr = (Ok r, tr ++ [HttpGet url timeout])).
  { unfold get. rewrite Ho. reflexivity. }
  erewrite bind_ok; [|apply try_except_ok; exact Hget].
  unfold try_except, bind, raise_for_status, http_error_msg.
  destruct (Z.leb_spec 400 (status_code r)); destruct (Z.ltb_spec (status_code r) 500);
    destruct (Z.leb_spec 500 (status_code r)); destruct (Z.ltb_spec (status_code r) 600);
    simpl; try lia; reflexivity.
Qed.

Lemma gets_after_attempt tr :
  length (http_gets ((tr ++ [HttpGet url timeout]) ++ [Sleep 2])) = S (length (http_gets tr)).
Proof. rewrite !http_gets_app, !length_app. simpl. lia. Qed.

(** Three retried failures in a row. *)
Lemma fetch_html_exhausted tr o1 o2 o3 e1 e2 e3 :
  requests_get W url (length (http_gets tr)) = o1 -> retried_failure o1 e1 ->
  requests_get W url (S (length (http_gets tr))) = o2 -> retried_failure o2 e2 ->
  requests_get W url (S (S (length (http_gets tr)))) = o3 -> retried_failure o3 e3 ->
  fetch_html W url timeout tr
  = (Raise e3,
     tr ++ [HttpGet url timeout; Sleep 2; HttpGet url timeout; Sleep 2;
            HttpGet url timeout]).
Proof.
  intros O1 F1 O2 F2 O3 F3.
  destruct (fetch_html_call_failure tr o1 e1 O1 F1) as [C1 R1].
  rewrite <- gets_after_attempt in O2.
  destruct (fetch_html_call_failure _ o2 e2 O2 F2) as [C2 R2].
  rewrite <- gets_after_attempt, <- gets_after_attempt in O3.
  destruct (fetch_html_call_failure _ o3 e3 O3 F3) as [C3 R3].
  unfold fetch_html.
  rewrite (retry3_exhausted _ _ _ _ _ _ _ _ _ C1 R1 C2 R2 C3).
  rewrite <- !app_assoc. reflexivity.
Qed.

(** Two retried failures, then a page: three GETs and the page. *)
Lemma fetch_html_third_time tr o1 o2 r e1 e2 :
  requests_get W url (length (http_gets tr)) = o1 -> retried_failure o1 e1 ->
  requests_get W url (S (length (http_gets tr))) = o2 -> retried_failure o2 e2 ->
  requests_get W url (S (S (length (http_gets tr)))) = Returns r ->
  ~ 400 <= status_code r < 600 ->
  fetch_html W url timeout tr
  = (Ok (response_text r),
     tr ++ [HttpGet url timeout; Sleep 2; HttpGet url timeout; Sleep 2;
            HttpGet url timeout]).
Proof.
  intros O1 F1 O2 F2 O3 F3.
  destruct (fetch_html_call_failure tr o1 e1 O1 F1) as [C1 R1].
  rewrite <- gets_after_attempt in O2.
  destruct (fetch_html_call_failure _ o2 e2 O2 F2) as [C2 R2].
  rewrite <- gets_after_attempt, <- gets_after_attempt in O3.
  pose proof (fetch_html_call_returns _ r O3 F3) as C3.
  unfold fetch_html.
  rewrite (retry3_third_returns _ _ _ _ _ _ _ _ _ C1 R1 C2 R2 C3).
  rewrite <- !app_assoc. reflexivity.
Qed.

Lemma fetch_html_first_time tr r :
  requests_get W url (length (http_gets tr)) = Returns r ->
  ~ 400 <= status_code r < 600 ->
  fetch_html W url timeout tr = (Ok (response_text r), tr ++ [HttpGet url timeout]).
Proof.
  intros O F. unfold fetch_html. apply retry_returns.
  apply fetch_html_call_returns; assumption.
Qed.

End Fetcher.

(** An invalid URL: no request, no wait, the failure at once. *)
Lemma fetch_html_invalid_url W url timeout tr :
  validate_url W url = false ->
  fetch_html W url timeout tr = (Raise (Exc ValueError (py "Невалидный URL: " ++ url)), tr).
Proof.
  intros Hv. unfold fetch_html. apply retry_not_retried.
  - unfold fetch_html_call. rewrite Hv. reflexivity.
  - reflexivity.
Qed.

(** ** The generator *)

Lemma parse_questions_clamp result_text :
  parse_questions result_text = take 5 (chosen_parse result_text).
Proof.
  unfold parse_questions, chosen_parse. cbv zeta.
  destruct (_ <? 5); rewrite take_take; reflexivity.
Qed.

Lemma blank_stripped_empty (text : str) : strip text = [] -> blank (Some text) = true.
Proof. intros H. unfold blank. rewrite H. apply orb_true_r. Qed.

Section Generator.

Variable W : World.
Variable text : str.

Let retry_on := tenacity.retry_if_exception_type [Exception].

Lemma get_questions_from_text_call_no_client tr :
  client_configured W = false ->
  get_questions_from_text_call W text tr
  = (Raise (Exc ValueError (py "OpenAI API ключ не настроен. Проверьте .env файл.")), tr).
Proof. intros H. unfold get_questions_from_text_call. rewrite H. reflexivity. Qed.

Lemma get_questions_from_text_call_blank tr :
  client_configured W = true -> blank (Some text) = true ->
  get_questions_from_text_call W text tr
  = (Raise (Exc ValueError (py "Текст не может быть пустым")), tr).
Proof.
  intros H B. unfold get_questions_from_text_call. rewrite H, B. reflexivity.
Qed.

(** A call that raises the same exception whatever the trace is made
    three times, with the two waits in between. *)
Lemma retry3_constant_failure {A} (f : M A) e tr :
  (forall tr0, f tr0 = (Raise e, tr0)) ->
  tenacity.retry 3 (tenacity.wait_exponential 1 2 10) retry_on f tr
  = (Raise e, tr ++ [Sleep 2; Sleep 2]).
Proof.
  intros Hf.
  assert (R : retry_on e = true).
  { unfold retry_on, tenacity.retry_if_exception_type, isinstance.
    destruct (exc_type e); reflexivity. }
  rewrite (retry3_exhausted retry_on f tr e tr e _ e _ (Hf _) R (Hf _) R (Hf _)).
  rewrite <- app_assoc. reflexivity.
Qed.

(** A call that gets a completion with text in its first choice. *)
Lemma get_questions_from_text_call_parses tr response choice others c :
  client_configured W = true -> blank (Some text) = false ->
  completions_create W (prompt_of text) (length (completion_requests tr)) = Returns response ->
  choices response = choice :: others -> content choice = Some c ->
  blank (Some c) = false ->
  get_questions_from_text_call W text tr
  = (Ok (parse_questions (strip c)), tr ++ [CompletionsCreate (prompt_of text)]).
Proof.
  intros H B O Hc Hm Bc. unfold get_questions_from_text_call.
  rewrite H, B. cbn [negb]. apply try_except_ok.
  erewrite bind_ok; [|unfold create; rewrite O; reflexivity].
  rewrite Hc, Hm, Bc. reflexivity.
Qed.

End Generator.

(** Whatever the world, a list the generator returns is a parse of some
    text, clamped. *)
Lemma get_questions_from_text_returns_inv W text tr questions tr' :
  get_questions_from_text W text tr = (Ok questions, tr') ->
  exists result_text, questions = take 5 (chosen_parse result_text).
Proof.
  unfold get_questions_from_text, tenacity.retry. intros H.
  apply attempts_returns_inv in H as [tr0 H].
  unfold get_questions_from_text_call in H.
  destruct (negb (client_configured W)); [discriminate|].
  destruct (blank (Some text)); [discriminate|].
  unfold try_except, bind, create in H.
  destruct (completions_create W _ _) as [response|e].
  - destruct (choices response) as [|choice others].
    + simpl in H. discriminate.
    + destruct (blank (content choice)).
      * simpl in H. discriminate.
      * injection H as <- _. eexists. apply parse_questions_clamp.
  - simpl in H.
    repeat match type of H with
           | context [if ?b then _ else _] => destruct b
           end; discriminate.
Qed.

(** ** Whitespace: [strip] and [clean_text] *)

Lemma lstrip_all_space (s : str) : forallb isspace s = true -> lstrip s = [].
Proof.
  induction s as [|c s IH]; simpl; [reflexivity|].
  intros H. apply andb_true_iff in H as [Hc Hs]. rewrite Hc. exact (IH Hs).
Qed.

Lemma lstrip_nil_inv (s : str) : lstrip s = [] -> forallb isspace s = true.
Proof.
  induction s as [|c s IH]; simpl; [reflexivity|].
  destruct (isspace c); [exact IH | discriminate].
Qed.

Lemma lstrip_head (s : str) c t : lstrip s = c :: t -> isspace c = false.
Proof.
  induction s as [|x s IH]; simpl; [discriminate|].
  destruct (isspace x) eqn:Hx; [exact IH|]. intros [= <- _]. exact Hx.
Qed.

Lemma lstrip_snoc (l : str) c :
  isspace c = false -> exists l', lstrip (l ++ [c]) = l' ++ [c].
Proof.
  intros Hc. induction l as [|x l IH]; simpl.
  - rewrite Hc. exists []. reflexivity.
  - destruct (isspace x); [exact IH|]. exists (x :: l). reflexivity.
Qed.

Lemma rstrip_keeps_head c (t : str) :
  isspace c = false -> exists t', rstrip (c :: t) = c :: t'.
Proof.
  intros Hc. unfold rstrip. rewrite reverse_cons.
  destruct (lstrip_snoc (reverse t) c Hc) as [l' ->].
  rewrite reverse_snoc. eauto.
Qed.

Lemma strip_nil_iff (s : str) : strip s = [] <-> forallb isspace s = true.
Proof.
  unfold strip. split.
  - destruct (lstrip s) as [|c t] eqn:L; [intros _; apply lstrip_nil_inv, L|].
    destruct (rstrip_keeps_head c t (lstrip_head s c t L)) as [t' ->]. discriminate.
  - intros H. rewrite (lstrip_all_space s H). reflexivity.
Qed.

Lemma strip_head (s : str) c t : strip s = c :: t -> isspace c = false.
Proof.
  unfold strip. destruct (lstrip s) as [|c' t'] eqn:L; [discriminate|].
  pose proof (lstrip_head s c' t' L) as Hc'.
  destruct (rstrip_keeps_head c' t' Hc') as [t'' ->]. intros [= <- _]. exact Hc'.
Qed.

(** Stripping a stripped, non-empty string leaves something. *)
Lemma strip_strip_nonempty (s : str) : strip s <> [] -> strip (strip s) <> [].
Proof.
  intros Hne H. apply strip_nil_iff in H.
  destruct (strip s) as [|c t] eqn:E; [congruence|].
  simpl in H. rewrite (strip_head s c t E) in H. discriminate.
Qed.

Lemma sub_whitespace_all_space b (s : str) :
  forallb isspace s = true -> forallb isspace (sub_whitespace b s) = true.
Proof.
  revert b. induction s as [|c s IH]; intros b; simpl; [reflexivity|].
  intros H. apply andb_true_iff in H as [Hc Hs]. rewrite Hc.
  destruct b; simpl; auto.
Qed.

Lemma clean_text_nonempty (text : str) : clean_text text <> [] -> strip text <> [].
Proof.
  intros Hne H. apply Hne. unfold clean_text.
  apply strip_nil_iff, sub_whitespace_all_space, strip_nil_iff, H.
Qed.

Lemma len_zero (s : str) : len s = 0 <-> s = [].
Proof.
  unfold len. destruct s; simpl; split; intros H;
    first [reflexivity | discriminate | lia].
Qed.

Lemma len_app (a b : str) : len (a ++ b) = len a + len b.
Proof. unfold len. rewrite length_app. lia. Qed.

(** ** The extractor's cut *)

Lemma limit_length_spec (cleaned_text : str) :
  MAX_TEXT_LENGTH < len cleaned_text ->
  exists body,
    limit_length cleaned_text = body ++ py "..."
    /\ len body <= MAX_TEXT_LENGTH
    /\ ((exists p, 0 <= p < MAX_TEXT_LENGTH
           /\ cleaned_text !! Z.to_nat p = Some space
           /\ (forall q, p < q < MAX_TEXT_LENGTH ->
                 cleaned_text !! Z.to_nat q <> Some space)
           /\ body = slice_to p cleaned_text)
        \/ ((forall q, 0 <= q < MAX_TEXT_LENGTH ->
               cleaned_text !! Z.to_nat q <> Some space)
            /\ body = slice_to MAX_TEXT_LENGTH cleaned_text)).
Proof.
  intros Hlong. unfold limit_length.
  destruct (Z.ltb_spec MAX_TEXT_LENGTH (len cleaned_text)) as [_|]; [|lia].
  assert (Hmax : 0 <= MAX_TEXT_LENGTH) by (unfold MAX_TEXT_LENGTH; lia).
  pose proof (len_slice_to MAX_TEXT_LENGTH cleaned_text Hmax ltac:(lia)) as Hlen.
  unfold rsplit1.
  destruct (rfind_spec space (slice_to MAX_TEXT_LENGTH cleaned_text))
    as [[-> Hnone] | (Hr & Hat & Hlast)].
  - simpl. eexists. split; [reflexivity|]. split; [lia|]. right.
    split; [|reflexivity]. intros q Hq Hc. apply (Hnone (Z.to_nat q)).
    rewrite slice_to_lookup by lia. exact Hc.
  - set (p := rfind space (slice_to MAX_TEXT_LENGTH cleaned_text)) in *.
    rewrite Hlen in Hr.
    destruct (Z.ltb_spec p 0) as [|_]; [lia|]. simpl.
    assert (Hbody : slice_to p (slice_to MAX_TEXT_LENGTH cleaned_text)
                    = slice_to p cleaned_text).
    { unfold slice_to. destruct (Z.ltb_spec p 0) as [|_]; [lia|].
      destruct (Z.ltb_spec MAX_TEXT_LENGTH 0) as [|_]; [lia|].
      rewrite take_take. f_equal. lia. }
    rewrite Hbody. eexists. split; [reflexivity|]. split.
    + rewrite len_slice_to; lia.
    + left. exists p. split; [lia|]. split.
      * rewrite slice_to_lookup in Hat by lia. exact Hat.
      * split; [|reflexivity]. intros q Hq Hc.
        rewrite <- (slice_to_lookup MAX_TEXT_LENGTH) in Hc by lia.
        specialize (Hlast _ Hc). lia.
Qed.

(** ** The pipeline and the endpoint *)

Lemma issubclass_Exception c : issubclass c Exception = true.
Proof. destruct c; reflexivity. Qed.

Lemma join_nil_or_parts (sep : str) (parts : list str) :
  match parts with _ :: _ => join sep parts | [] => [] end = join sep parts.
Proof. destruct parts; reflexivity. Qed.

Section Pipeline.

Variable W : World.
Variable url : str.

(** The extractor on a page that was fetched and whose cleaned text is
    not empty. *)
Lemma extract_text_from_url_returns tr html tr' :
  fetch_html W url 10 tr = (Ok html, tr') ->
  clean_text (join [space] (text_parts_of (BeautifulSoup W html REMOVE_TAGS))) <> [] ->
  extract_text_from_url W url tr
  = (Ok (limit_length
           (clean_text (join [space] (text_parts_of (BeautifulSoup W html REMOVE_TAGS))))),
     tr').
Proof.
  intros Hf Hne. unfold extract_text_from_url.
  rewrite (bind_ok _ _ _ _ _ Hf). cbv zeta. rewrite join_nil_or_parts.
  set (full_text := join [space] _) in *.
  pose proof (clean_text_nonempty full_text Hne) as Hs.
  assert (truthy full_text = true) as ->.
  { destruct full_text; [exfalso; apply Hs; reflexivity | reflexivity]. }
  destruct (Z.eqb_spec (len (strip full_text)) 0) as [E|_].
  { apply len_zero in E. contradiction. }
  cbn [negb orb].
  assert (truthy (clean_text full_text) = true) as ->.
  { destruct (clean_text full_text); [congruence | reflexivity]. }
  destruct (Z.eqb_spec (len (strip (clean_text full_text))) 0) as [E|_].
  { apply len_zero in E. exfalso. revert E. apply strip_strip_nonempty.
    exact Hne. }
  reflexivity.
Qed.

(** A failure of the fetch that is a [RequestException] of any kind
    leaves the pipeline as a plain [RequestException]. *)
Lemma generate_questions_from_url_fetch_fails tr e tr' :
  fetch_html W url 10 tr = (Raise e, tr') ->
  isinstance e ValueError = false -> isinstance e RequestException = true ->
  generate_questions_from_url W url tr
  = (Raise (Exc RequestException
              (py "Сетевая ошибка при загрузке страницы: " ++ str_of_exc e)), tr').
Proof.
  intros Hf HV HR. unfold generate_questions_from_url.
  assert (He : extract_text_from_url W url tr = (Raise e, tr')).
  { unfold extract_text_from_url. apply bind_raise. exact Hf. }
  unfold try_except at 1. erewrite bind_raise.
  2:{ unfold try_except. rewrite He. simpl. rewrite HV, HR. reflexivity. }
  reflexivity.
Qed.

Lemma generate_questions_of_request_exception tr message tr' :
  generate_questions_from_url W url tr = (Raise (Exc RequestException message), tr') ->
  generate_questions W url tr
  = (Raise (HTTPException_ 503
              (py "Сетевая ошибка при загрузке страницы: " ++ message)), tr').
Proof.
  intros H. unfold generate_questions, try_except.
  erewrite bind_raise by exact H. reflexivity.
Qed.

(** Too little text: the failure is raised where the extraction left the
    trace. *)
Lemma generate_questions_from_url_short tr text tr' :
  extract_text_from_url W url tr = (Ok text, tr') ->
  len (strip text) < MIN_TEXT_LENGTH ->
  generate_questions_from_url W url tr
  = (Raise (Exc ValueError (insufficient_text_msg text)), tr').
Proof.
  intros He Hs. unfold generate_questions_from_url.
  unfold try_except at 1. erewrite bind_ok.
  2:{ apply try_except_ok. exact He. }
  destruct (Z.ltb_spec (len (strip text)) MIN_TEXT_LENGTH) as [_|]; [|lia].
  rewrite orb_true_r. reflexivity.
Qed.

Lemma insufficient_text_msg_eq (text : str) :
  insufficient_text_msg text
  = py "Недостаточно текста на странице для генерации вопросов. "
      ++ py "Минимум: " ++ str_of_int 50 ++ py " символов, получено: "
      ++ str_of_int (len (strip text)).
Proof.
  unfold insufficient_text_msg. destruct text as [|c t]; reflexivity.
Qed.

(** The classes that leave the pipeline: what the fetch or the generator
    raised is re-raised as one of three. *)
Lemma generate_questions_from_url_raises tr e tr' :
  generate_questions_from_url W url tr = (Raise e, tr') ->
  exc_status_code e = None /\
  (exc_type e = ValueError \/ exc_type e = RequestException \/ exc_type e = Exception).
Proof.
  unfold generate_questions_from_url, try_except, bind.
  destruct (extract_text_from_url W url tr) as [[text|e0] tr0].
  - destruct (negb (truthy text) || (len (strip text) <? MIN_TEXT_LENGTH)).
    + simpl. intros [= <- _]. auto.
    + destruct (get_questions_from_text W _ tr0) as [[qs|e1] tr1]; [discriminate|].
      simpl. destruct (isinstance e1 ValueError).
      * simpl. intros [= <- _]. auto.
      * unfold isinstance at 1. rewrite issubclass_Exception.
        simpl. intros [= <- _]. auto.
  - simpl. destruct (isinstance e0 ValueError) eqn:HV.
    + simpl. intros [= <- _]. auto.
    + destruct (isinstance e0 RequestException) eqn:HR.
      * simpl. intros [= <- _]. auto.
      * simpl. rewrite HV, HR. unfold isinstance at 1. rewrite issubclass_Exception.
        simpl. intros [= <- _]. auto.
Qed.

(** The status codes of the endpoint: 408 is not among them. *)
Lemma generate_questions_status_codes tr e tr' :
  generate_questions W url tr = (Raise e, tr') ->
  exc_type e = HTTPException /\
  (exc_status_code e = Some 400 \/ exc_status_code e = Some 500
   \/ exc_status_code e = Some 503).
Proof.
  unfold generate_questions, try_except, bind.
  destruct (generate_questions_from_url W url tr) as [[qs|e0] tr0] eqn:G.
  - destruct qs; [|discriminate]. simpl. intros [= <- _]. auto.
  - destruct (generate_questions_from_url_raises _ _ _ G) as [_ [T | [T | T]]];
      unfold isinstance; simpl; rewrite T; simpl; intros [= <- _]; auto.
Qed.

End Pipeline.

(** * The claims *)

(** ** C1 *)

(** C1, as the code has it.  A GET answered with a 4xx or 5xx status makes
    the call raise an [HTTPError] whose message carries the status code,
    and the decorator retries that failure as it retries the
    transport-level ones ([retried_failure]: status, timeout, connection
    failure, other [RequestException]): when three attempts in a row fail
    in one of these ways, [fetch_html] has sent three GETs, has waited 2
    seconds after the first and after the second, and raises the failure
    of the third attempt as it is. *)
Theorem fetch_html_status_failure_is_retried
    (W : World) (url : str) (timeout : Z) (tr : trace)
    (o1 o2 o3 : outcome Response) (e1 e2 e3 : exc) :
  validate_url W url = true ->
  requests_get W url (length (http_gets tr)) = o1 -> retried_failure o1 e1 ->
  requests_get W url (S (length (http_gets tr))) = o2 -> retried_failure o2 e2 ->
  requests_get W url (S (S (length (http_gets tr)))) = o3 -> retried_failure o3 e3 ->
  fetch_html W url timeout tr
  = (Raise e3,
     tr ++ [HttpGet url timeout; Sleep 2; HttpGet url timeout; Sleep 2;
            HttpGet url timeout])
  /\ forall r, o3 = Returns r ->
       e3 = Exc HTTPError (py "HTTP ошибка " ++ str_of_int (status_code r)
                             ++ py ": " ++ http_error_msg r).
Proof.
  intros Hv O1 F1 O2 F2 O3 F3. split.
  - exact (fetch_html_exhausted W url timeout Hv tr o1 o2 o3 e1 e2 e3 O1 F1 O2 F2 O3 F3).
  - intros r ->. inversion F3; subst. reflexivity.
Qed.

Lemma fetch_html_status_failure_is_retried_witness :
  validate_url world_404 sample_url = true
  /\ retried_failure (Returns not_found_response)
       (Exc HTTPError (py "HTTP ошибка " ++ str_of_int 404 ++ py ": "
                         ++ http_error_msg not_found_response))
  /\ (fetch_html world_404 sample_url 10 []
      = (Raise (Exc HTTPError (py "HTTP ошибка " ++ str_of_int 404 ++ py ": "
                                 ++ http_error_msg not_found_response)),
         [] ++ [HttpGet sample_url 10; Sleep 2; HttpGet sample_url 10; Sleep 2;
                HttpGet sample_url 10])
      /\ forall r, Returns not_found_response = Returns r ->
           Exc HTTPError (py "HTTP ошибка " ++ str_of_int 404 ++ py ": "
                            ++ http_error_msg not_found_response)
           = Exc HTTPError (py "HTTP ошибка " ++ str_of_int (status_code r)
                              ++ py ": " ++ http_error_msg r)).
Proof.
  assert (F : retried_failure (Returns not_found_response)
                (Exc HTTPError (py "HTTP ошибка " ++ str_of_int 404 ++ py ": "
                                  ++ http_error_msg not_found_response))).
  { apply (status_failure not_found_response). simpl. lia. }
  split; [reflexivity|]. split; [exact F|].
  exact (fetch_html_status_failure_is_retried world_404 sample_url 10 []
           (Returns not_found_response) (Returns not_found_response)
           (Returns not_found_response) _ _ _
           eq_refl eq_refl F eq_refl F eq_refl F).
Defined.

(** C1, counterexample.  Every GET of [world_404] is answered 404 Not
    Found.  [fetch_html] does not stop at the first answer: it sends the
    request three times and sleeps twice before it raises. *)
Lemma fetch_html_not_found_is_retried :
  requests_get world_404 sample_url 0 = Returns not_found_response
  /\ status_code not_found_response = 404
  /\ fetch_html world_404 sample_url 10 []
     = (Raise (Exc HTTPError
                 (py "HTTP ошибка 404: 404 Client Error: Not Found for url: https://example.com/article")),
        [HttpGet sample_url 10; Sleep 2; HttpGet sample_url 10; Sleep 2;
         HttpGet sample_url 10])
  /\ length (http_gets (snd (fetch_html world_404 sample_url 10 []))) = 3%nat
  /\ sleeps (snd (fetch_html world_404 sample_url 10 [])) = [2; 2].
Proof. vm_compute. repeat split; reflexivity. Qed.

(** ** C2 *)

(** C2, as the code has it.  Without a credential, or with a text that is
    empty once stripped, [get_questions_from_text] raises a [ValueError],
    but its decorator retries on every [Exception]: the check is made
    three times and the two waits of 2 seconds pass before the failure
    reaches the caller.  No completion request is sent. *)
Theorem get_questions_from_text_invalid_input_is_retried
    (W : World) (text : str) (tr : trace) :
  client_configured W = false \/ strip text = [] ->
  exists message,
    get_questions_from_text W text tr
    = (Raise (Exc ValueError message), tr ++ [Sleep 2; Sleep 2])
    /\ (message = py "OpenAI API ключ не настроен. Проверьте .env файл."
        \/ message = py "Текст не может быть пустым").
Proof.
  intros H. unfold get_questions_from_text.
  destruct (client_configured W) eqn:C.
  - destruct H as [H|H]; [discriminate|].
    eexists. split; [|right; reflexivity].
    apply retry3_constant_failure. intros tr0.
    apply get_questions_from_text_call_blank; [exact C|].
    apply blank_stripped_empty, H.
  - eexists. split; [|left; reflexivity].
    apply retry3_constant_failure. intros tr0.
    apply get_questions_from_text_call_no_client, C.
Qed.

Lemma get_questions_from_text_invalid_input_is_retried_witness :
  (client_configured world_no_key = false \/ strip paragraph_60 = [])
  /\ exists message,
       get_questions_from_text world_no_key paragraph_60 []
       = (Raise (Exc ValueError message), [] ++ [Sleep 2; Sleep 2])
       /\ (message = py "OpenAI API ключ не настроен. Проверьте .env файл."
           \/ message = py "Текст не может быть пустым").
Proof.
  split.
  - left. reflexivity.
  - apply (get_questions_from_text_invalid_input_is_retried world_no_key paragraph_60 []).
    left. reflexivity.
Defined.

(** C2, counterexample.  With no credential, and with a blank text, the
    failure comes after two backoff waits, not at once. *)
Lemma get_questions_from_text_invalid_input_waits :
  client_configured world_no_key = false
  /\ get_questions_from_text world_no_key paragraph_60 []
     = (Raise (Exc ValueError (py "OpenAI API ключ не настроен. Проверьте .env файл.")),
        [Sleep 2; Sleep 2])
  /\ strip (py "   ") = []
  /\ get_questions_from_text world_fine (py "   ") []
     = (Raise (Exc ValueError (py "Текст не может быть пустым")), [Sleep 2; Sleep 2])
  /\ sleeps (snd (get_questions_from_text world_no_key paragraph_60 [])) <> [].
Proof. vm_compute. repeat split; try reflexivity. discriminate. Qed.

(** ** C3 *)

(** C3, the code at a fetch that times out.  Every GET of
    [world_timeout] raises [ReadTimeout].  [fetch_html] raises a
    [Timeout] after its three attempts, but [generate_questions_from_url]
    raises a plain [RequestException] in its place, which is not a
    [Timeout], and the endpoint answers 503 where its own [Timeout]
    clause would have answered 408. *)
Theorem generate_questions_timeout_answers_503 :
  fetch_html world_timeout sample_url 10 []
  = (Raise (Exc Timeout
              (py "Таймаут при загрузке страницы: Read timed out. (read timeout=10)")),
     [HttpGet sample_url 10; Sleep 2; HttpGet sample_url 10; Sleep 2;
      HttpGet sample_url 10])
  /\ generate_questions_from_url world_timeout sample_url []
     = (Raise (Exc RequestException
                 (py "Сетевая ошибка при загрузке страницы: Таймаут при загрузке страницы: Read timed out. (read timeout=10)")),
        [HttpGet sample_url 10; Sleep 2; HttpGet sample_url 10; Sleep 2;
         HttpGet sample_url 10])
  /\ issubclass RequestException Timeout = false
  /\ generate_questions world_timeout sample_url []
     = (Raise (HTTPException_ 503
                 (py "Сетевая ошибка при загрузке страницы: Сетевая ошибка при загрузке страницы: Таймаут при загрузке страницы: Read timed out. (read timeout=10)")),
        [HttpGet sample_url 10; Sleep 2; HttpGet sample_url 10; Sleep 2;
         HttpGet sample_url 10]).
Proof. vm_compute. repeat split; reflexivity. Qed.

(** ** C4 *)

(** C4.  The response of five lines, two numbered and three with a list
    marker, parses to the five questions, in order. *)
Theorem parse_questions_marked_lines :
  five_marked_lines
  = py "1. What is X?" ++ [nl] ++ py "2. Why Y?" ++ [nl] ++ py "- How Z?" ++ [nl]
      ++ py "* When?" ++ [nl] ++ py "• Who?"
  /\ parse_questions (strip five_marked_lines)
     = [py "What is X?"; py "Why Y?"; py "How Z?"; py "When?"; py "Who?"].
Proof. vm_compute. split; reflexivity. Qed.

(** ** C5 *)

(** C5, as the code has it.  For a cap that is not negative: a text no
    longer than the cap is returned as it is; a longer text is cut in
    exactly one of three ways, and the result is never longer than the
    cap.  The window of the search is the part of the prefix
    [text[:max_length]] strictly after the float product
    [max_length * 0.7] ([in_window]).  Either the window holds a sentence
    delimiter, and the text is cut just after the rightmost one; or it
    holds none but holds a space, and the text is cut at the rightmost
    space; or it holds neither, and the text is cut at the cap. *)
Theorem smart_truncate_text_outcomes (text : str) (max_length : Z) :
  0 <= max_length ->
  (len text <= max_length /\ smart_truncate_text text max_length = text)
  \/ (max_length < len text
      /\ len (smart_truncate_text text max_length) <= max_length
      /\ ((exists p, rightmost_in_window is_sentence_ending text max_length p
             /\ smart_truncate_text text max_length = slice_to (p + 1) text)
          \/ (none_in_window is_sentence_ending text max_length
              /\ exists p, rightmost_in_window is_space text max_length p
                   /\ smart_truncate_text text max_length = slice_to p text)
          \/ (none_in_window is_sentence_ending text max_length
              /\ none_in_window is_space text max_length
              /\ smart_truncate_text text max_length = slice_to max_length text))).
Proof.
  intros Hn. destruct (Z.le_gt_cases (len text) max_length) as [Hshort | Hlong].
  - left. split; [exact Hshort|]. unfold smart_truncate_text.
    destruct (Z.leb_spec (len text) max_length); [reflexivity | lia].
  - right. split; [exact Hlong|]. split; [apply smart_truncate_text_len, Hn|].
    destruct (smart_truncate_text_long text max_length Hn Hlong)
      as [(p & _ & Hp & E) | [(Hnone & p & _ & Hp & E) | (Hnone & Hnone' & E)]].
    + left. eauto.
    + right. left. eauto.
    + right. right. auto.
Qed.

Lemma smart_truncate_text_outcomes_witness :
  0 <= 10
  /\ ((len (py "aaaa bbbb. cccc dddd") <= 10
       /\ smart_truncate_text (py "aaaa bbbb. cccc dddd") 10 = py "aaaa bbbb. cccc dddd")
      \/ (10 < len (py "aaaa bbbb. cccc dddd")
          /\ len (smart_truncate_text (py "aaaa bbbb. cccc dddd") 10) <= 10
          /\ ((exists p, rightmost_in_window is_sentence_ending (py "aaaa bbbb. cccc dddd") 10 p
                 /\ smart_truncate_text (py "aaaa bbbb. cccc dddd") 10
                    = slice_to (p + 1) (py "aaaa bbbb. cccc dddd"))
              \/ (none_in_window is_sentence_ending (py "aaaa bbbb. cccc dddd") 10
                  /\ exists p, rightmost_in_window is_space (py "aaaa bbbb. cccc dddd") 10 p
                       /\ smart_truncate_text (py "aaaa bbbb. cccc dddd") 10
                          = slice_to p (py "aaaa bbbb. cccc dddd"))
              \/ (none_in_window is_sentence_ending (py "aaaa bbbb. cccc dddd") 10
                  /\ none_in_window is_space (py "aaaa bbbb. cccc dddd") 10
                  /\ smart_truncate_text (py "aaaa bbbb. cccc dddd") 10
                     = slice_to 10 (py "aaaa bbbb. cccc dddd"))))).
Proof.
  split; [lia|].
  apply (smart_truncate_text_outcomes (py "aaaa bbbb. cccc dddd") 10). lia.
Defined.

(** C5, counterexample.  Cap 10 and a text of 15 characters whose only
    delimiter is the period at index 7, which is position 0.7 * 10: the
    window "at or after" that position holds it, and a cut just after it
    gives 8 characters; the code compares with [pos > max_length * 0.7],
    does not see it, finds no space either and cuts at 10.  And with a
    negative cap the result is longer than the cap. *)
Lemma smart_truncate_text_window_counterexample :
  10 < len (py "aaaaaaa.aaaaaaa")
  /\ py "aaaaaaa.aaaaaaa" !! 7%nat = Some dot
  /\ AsSpecified.in_window 7 10 = true
  /\ AsSpecified.truncate (py "aaaaaaa.aaaaaaa") 10 = py "aaaaaaa."
  /\ Float.gt_mul_07 7 10 = false
  /\ smart_truncate_text (py "aaaaaaa.aaaaaaa") 10 = py "aaaaaaa.aa"
  /\ smart_truncate_text (py "aaaaaaa.aaaaaaa") 10
     <> AsSpecified.truncate (py "aaaaaaa.aaaaaaa") 10
  /\ smart_truncate_text (py "abc") (-1) = py "ab"
  /\ ~ len (smart_truncate_text (py "abc") (-1)) <= -1.
Proof.
  repeat split; try (vm_compute; reflexivity).
  - vm_compute. discriminate.
  - intros H. vm_compute in H. apply H. reflexivity.
Qed.

(** ** C6 *)

(** C6.  When the cleaned text of the page is longer than 10,000
    characters, [extract_text_from_url] returns a body followed by the
    ellipsis "...": the body is the first 10,000 characters cut back to
    their last space (the space itself left out), or all of them when
    they hold no space; the whole is at most 10,003 characters long. *)
Theorem extract_text_from_url_soft_cap
    (W : World) (url : str) (tr : trace) (html : str) (tr' : trace) :
  fetch_html W url 10 tr = (Ok html, tr') ->
  MAX_TEXT_LENGTH
  < len (clean_text (join [space] (text_parts_of (BeautifulSoup W html REMOVE_TAGS)))) ->
  exists cleaned_text body,
    cleaned_text
    = clean_text (join [space] (text_parts_of (BeautifulSoup W html REMOVE_TAGS)))
    /\ extract_text_from_url W url tr = (Ok (body ++ py "..."), tr')
    /\ len (body ++ py "...") <= MAX_TEXT_LENGTH + 3
    /\ ((exists p, 0 <= p < MAX_TEXT_LENGTH
           /\ cleaned_text !! Z.to_nat p = Some space
           /\ (forall q, p < q < MAX_TEXT_LENGTH ->
                 cleaned_text !! Z.to_nat q <> Some space)
           /\ body = slice_to p cleaned_text)
        \/ ((forall q, 0 <= q < MAX_TEXT_LENGTH ->
               cleaned_text !! Z.to_nat q <> Some space)
            /\ body = slice_to MAX_TEXT_LENGTH cleaned_text)).
Proof.
  intros Hf Hlong.
  set (cleaned_text := clean_text _) in *.
  assert (Hne : cleaned_text <> []).
  { intros E. apply len_zero in E. unfold MAX_TEXT_LENGTH in Hlong. lia. }
  destruct (limit_length_spec cleaned_text Hlong) as (body & E & Hlen & Hcut).
  exists cleaned_text, body. split; [reflexivity|]. split.
  - rewrite <- E. apply extract_text_from_url_returns; assumption.
  - split; [|exact Hcut]. rewrite len_app.
    change (len (py "...")) with 3. lia.
Qed.

Lemma extract_text_from_url_soft_cap_witness :
  fetch_html world_long_page sample_url 10 []
  = (Ok (response_text ok_response), [HttpGet sample_url 10])
  /\ MAX_TEXT_LENGTH
     < len (clean_text (join [space] (text_parts_of
              (BeautifulSoup world_long_page (response_text ok_response) REMOVE_TAGS))))
  /\ exists cleaned_text body,
       cleaned_text
       = clean_text (join [space] (text_parts_of
           (BeautifulSoup world_long_page (response_text ok_response) REMOVE_TAGS)))
       /\ extract_text_from_url world_long_page sample_url []
          = (Ok (body ++ py "..."), [HttpGet sample_url 10])
       /\ len (body ++ py "...") <= MAX_TEXT_LENGTH + 3
       /\ ((exists p, 0 <= p < MAX_TEXT_LENGTH
              /\ cleaned_text !! Z.to_nat p = Some space
              /\ (forall q, p < q < MAX_TEXT_LENGTH ->
                    cleaned_text !! Z.to_nat q <> Some space)
              /\ body = slice_to p cleaned_text)
           \/ ((forall q, 0 <= q < MAX_TEXT_LENGTH ->
                  cleaned_text !! Z.to_nat q <> Some space)
               /\ body = slice_to MAX_TEXT_LENGTH cleaned_text)).
Proof.
  assert (Hf : fetch_html world_long_page sample_url 10 []
               = (Ok (response_text ok_response), [HttpGet sample_url 10])).
  { vm_compute. reflexivity. }
  assert (Hlong : MAX_TEXT_LENGTH
     < len (clean_text (join [space] (text_parts_of
              (BeautifulSoup world_long_page (response_text ok_response) REMOVE_TAGS))))).
  { vm_compute. reflexivity. }
  split; [exact Hf|]. split; [exact Hlong|].
  exact (extract_text_from_url_soft_cap world_long_page sample_url []
           (response_text ok_response) [HttpGet sample_url 10] Hf Hlong).
Defined.

(** ** C7 *)

(** C7.  Whatever text the completion carries, the list
    [get_questions_from_text] returns has at most five entries: it is the
    first five of the parsed questions, and when fewer than five were
    parsed it is the parsed list itself, returned normally and not
    filled up. *)
Theorem get_questions_from_text_at_most_five
    (W : World) (text : str) (tr : trace)
    (response : ChatCompletion) (choice : Choice) (others : list Choice) (c : str) :
  client_configured W = true -> blank (Some text) = false ->
  completions_create W (prompt_of text) (length (completion_requests tr)) = Returns response ->
  choices response = choice :: others -> content choice = Some c ->
  blank (Some c) = false ->
  exists questions,
    get_questions_from_text W text tr
    = (Ok questions, tr ++ [CompletionsCreate (prompt_of text)])
    /\ (length questions <= 5)%nat
    /\ questions = take 5 (chosen_parse (strip c))
    /\ ((5 <= length (chosen_parse (strip c)))%nat
        \/ questions = chosen_parse (strip c)).
Proof.
  intros H B O Hc Hm Bc. exists (take 5 (chosen_parse (strip c))).
  split; [|split; [|split]].
  - unfold get_questions_from_text. apply retry_returns.
    rewrite <- parse_questions_clamp.
    apply (get_questions_from_text_call_parses W text tr response choice others c);
      assumption.
  - rewrite length_take. lia.
  - reflexivity.
  - destruct (Nat.le_gt_cases 5 (length (chosen_parse (strip c)))) as [L|L].
    + left. exact L.
    + right. apply take_ge. lia.
Qed.

Lemma get_questions_from_text_at_most_five_witness :
  client_configured world_long_page = true
  /\ blank (Some paragraph_60) = false
  /\ completions_create world_long_page (prompt_of paragraph_60)
       (length (completion_requests [])) = Returns (completion_of four_lines)
  /\ blank (Some four_lines) = false
  /\ exists questions,
       get_questions_from_text world_long_page paragraph_60 []
       = (Ok questions, [] ++ [CompletionsCreate (prompt_of paragraph_60)])
       /\ (length questions <= 5)%nat
       /\ questions = take 5 (chosen_parse (strip four_lines))
       /\ ((5 <= length (chosen_parse (strip four_lines)))%nat
           \/ questions = chosen_parse (strip four_lines)).
Proof.
  assert (B : blank (Some paragraph_60) = false) by (vm_compute; reflexivity).
  assert (Bc : blank (Some four_lines) = false) by (vm_compute; reflexivity).
  split; [reflexivity|]. split; [exact B|]. split; [reflexivity|]. split; [exact Bc|].
  exact (get_questions_from_text_at_most_five world_long_page paragraph_60 []
           (completion_of four_lines) _ [] four_lines
           eq_refl B eq_refl eq_refl eq_refl Bc).
Defined.

(** Four lines in the completion: four questions come back. *)
Example get_questions_from_text_four :
  get_questions_from_text world_long_page paragraph_60 []
  = (Ok [py "What is X?"; py "Why Y?"; py "How Z?"; py "When?"],
     [CompletionsCreate (prompt_of paragraph_60)]).
Proof. vm_compute. reflexivity. Qed.

(** ** C8 *)

(** C8.  When the text the extractor returns has fewer than 50 characters
    once stripped, [generate_questions_from_url] raises a [ValueError]
    whose message names the minimum, 50, and the length found; the trace
    is the one the extraction left, so nothing was sent to the completion
    endpoint. *)
Theorem generate_questions_from_url_insufficient_text
    (W : World) (url : str) (tr : trace) (text : str) (tr' : trace) :
  extract_text_from_url W url tr = (Ok text, tr') ->
  len (strip text) < MIN_TEXT_LENGTH ->
  generate_questions_from_url W url tr
  = (Raise (Exc ValueError
              (py "Недостаточно текста на странице для генерации вопросов. "
                 ++ py "Минимум: " ++ str_of_int 50 ++ py " символов, получено: "
                 ++ str_of_int (len (strip text)))),
     tr').
Proof.
  intros He Hs. rewrite <- insufficient_text_msg_eq.
  apply generate_questions_from_url_short; assumption.
Qed.

Lemma generate_questions_from_url_insufficient_text_witness :
  extract_text_from_url world_short_page sample_url []
  = (Ok paragraph_30, [HttpGet sample_url 10])
  /\ len (strip paragraph_30) < MIN_TEXT_LENGTH
  /\ generate_questions_from_url world_short_page sample_url []
     = (Raise (Exc ValueError
                 (py "Недостаточно текста на странице для генерации вопросов. "
                    ++ py "Минимум: " ++ str_of_int 50 ++ py " символов, получено: "
                    ++ str_of_int (len (strip paragraph_30)))),
        [HttpGet sample_url 10]).
Proof.
  assert (He : extract_text_from_url world_short_page sample_url []
               = (Ok paragraph_30, [HttpGet sample_url 10])).
  { vm_compute. reflexivity. }
  assert (Hs : len (strip paragraph_30) < MIN_TEXT_LENGTH).
  { vm_compute. reflexivity. }
  split; [exact He|]. split; [exact Hs|].
  exact (generate_questions_from_url_insufficient_text world_short_page sample_url []
           paragraph_30 [HttpGet sample_url 10] He Hs).
Defined.

(** Thirty characters of cleaned text: minimum 50, found 30. *)
Example generate_questions_from_url_thirty :
  len paragraph_30 = 30
  /\ generate_questions_from_url world_short_page sample_url []
     = (Raise (Exc ValueError
                 (py "Недостаточно текста на странице для генерации вопросов. Минимум: 50 символов, получено: 30")),
        [HttpGet sample_url 10]).
Proof. vm_compute. split; reflexivity. Qed.

(** ** C9 *)

(** C9, as the code has it.  For a cap that is not negative, truncating
    the result again with the same cap gives it back. *)
Theorem smart_truncate_text_idempotent (text : str) (cap : Z) :
  0 <= cap ->
  smart_truncate_text (smart_truncate_text text cap) cap = smart_truncate_text text cap.
Proof.
  intros Hc. pose proof (smart_truncate_text_len text cap Hc) as Hlen.
  unfold smart_truncate_text at 1.
  destruct (Z.leb_spec (len (smart_truncate_text text cap)) cap); [reflexivity | lia].
Qed.

Lemma smart_truncate_text_idempotent_witness :
  0 <= 8000
  /\ smart_truncate_text
       (smart_truncate_text (letters 7500 ++ py "." ++ letters 1499) 8000) 8000
     = smart_truncate_text (letters 7500 ++ py "." ++ letters 1499) 8000.
Proof.
  split; [lia|].
  apply (smart_truncate_text_idempotent (letters 7500 ++ py "." ++ letters 1499) 8000).
  lia.
Defined.

(** C9, counterexample.  With the cap -1 the slice [text[:max_length]]
    drops the last character each time: "abc" gives "ab", and "ab" gives
    "a". *)
Lemma smart_truncate_text_negative_cap_counterexample :
  smart_truncate_text (py "abc") (-1) = py "ab"
  /\ smart_truncate_text (smart_truncate_text (py "abc") (-1)) (-1) = py "a"
  /\ smart_truncate_text (smart_truncate_text (py "abc") (-1)) (-1)
     <> smart_truncate_text (py "abc") (-1).
Proof.
  repeat split; try (vm_compute; reflexivity). vm_compute. discriminate.
Qed.

(** ** C10 *)

(** C10.  For a positive cap, what the truncator returns is a prefix of
    its input: the input is the result followed by what was dropped. *)
Theorem smart_truncate_text_prefix (text : str) (max_length : Z) :
  0 < max_length ->
  exists dropped, text = smart_truncate_text text max_length ++ dropped.
Proof.
  intros _. exact (smart_truncate_text_prefix_of text max_length).
Qed.

Lemma smart_truncate_text_prefix_witness :
  0 < 10
  /\ exists dropped,
       py "aaaa bbbb cccc dddd"
       = smart_truncate_text (py "aaaa bbbb cccc dddd") 10 ++ dropped.
Proof.
  split; [lia|].
  apply (smart_truncate_text_prefix (py "aaaa bbbb cccc dddd") 10). lia.
Defined.

(** * Further properties *)

(** ** Whitespace, continued *)

Lemma strip_strip (s : str) : strip (strip s) = strip s.
Proof.
  destruct (strip s) as [|c t] eqn:E; [reflexivity|].
  pose proof (strip_head s c t E) as Hc.
  unfold strip in E. unfold rstrip in E.
  assert (Hrev : reverse (c :: t) = lstrip (reverse (lstrip s))).
  { rewrite <- E. apply reverse_involutive. }
  unfold strip. simpl lstrip. rewrite Hc. unfold rstrip. rewrite Hrev.
  destruct (lstrip (reverse (lstrip s))) as [|d v] eqn:L.
  - apply (f_equal reverse) in Hrev. rewrite reverse_involutive in Hrev. discriminate.
  - simpl lstrip. rewrite (lstrip_head _ _ _ L).
    rewrite <- Hrev. apply reverse_involutive.
Qed.

Lemma lstrip_suffix (s : str) : exists a, s = a ++ lstrip s.
Proof.
  induction s as [|c s [a IH]]; simpl; [exists []; reflexivity|].
  destruct (isspace c).
  - exists (c :: a). simpl. f_equal. exact IH.
  - exists []. reflexivity.
Qed.

(** A stripped string is a segment of the string. *)
Lemma strip_segment (s : str) : exists a z, s = a ++ strip s ++ z.
Proof.
  destruct (lstrip_suffix s) as [a Ha].
  destruct (lstrip_suffix (reverse (lstrip s))) as [b Hb].
  exists a, (reverse b). unfold strip, rstrip.
  rewrite <- reverse_app, <- Hb, reverse_involutive. exact Ha.
Qed.

Lemma single_spaced_weaken b (s : str) :
  single_spaced b s = true -> single_spaced false s = true.
Proof.
  destruct s as [|c s]; simpl; [trivial|].
  destruct (isspace c); [|trivial].
  intros H. apply andb_true_iff in H as [H Hs]. apply andb_true_iff in H as [Hc _].
  rewrite Hc, Hs. reflexivity.
Qed.

Lemma single_spaced_app_r b (a s : str) :
  single_spaced b (a ++ s) = true -> single_spaced false s = true.
Proof.
  revert b. induction a as [|c a IH]; intros b; simpl.
  - apply single_spaced_weaken.
  - destruct (isspace c).
    + intros H. apply andb_true_iff in H as [_ H]. exact (IH _ H).
    + apply IH.
Qed.

Lemma single_spaced_app_l b (s z : str) :
  single_spaced b (s ++ z) = true -> single_spaced b s = true.
Proof.
  revert b. induction s as [|c s IH]; intros b; simpl; [reflexivity|].
  destruct (isspace c).
  - intros H. apply andb_true_iff in H as [H Hs]. rewrite H. exact (IH _ Hs).
  - apply IH.
Qed.

Lemma sub_whitespace_single_spaced b (s : str) :
  single_spaced b (sub_whitespace b s) = true.
Proof.
  revert b. induction s as [|c s IH]; intros b; simpl; [reflexivity|].
  destruct (isspace c) eqn:Hc.
  - destruct b; [apply IH|]. simpl. rewrite IH. reflexivity.
  - simpl. rewrite Hc. apply IH.
Qed.

Lemma sub_whitespace_fixed b (s : str) :
  single_spaced b s = true -> sub_whitespace b s = s.
Proof.
  revert b. induction s as [|c s IH]; intros b; simpl; [reflexivity|].
  destruct (isspace c).
  - intros H. apply andb_true_iff in H as [H Hs]. apply andb_true_iff in H as [Hc Hb].
    apply N.eqb_eq in Hc. destruct b; [discriminate|]. rewrite (IH _ Hs), Hc. reflexivity.
  - intros H. rewrite (IH _ H). reflexivity.
Qed.

Lemma sub_whitespace_all_space_inv b (s : str) :
  forallb isspace (sub_whitespace b s) = true -> forallb isspace s = true.
Proof.
  revert b. induction s as [|c s IH]; intros b; simpl; [reflexivity|].
  destruct (isspace c) eqn:Hc.
  - destruct b; simpl; [apply IH|]. intros H. exact (IH _ H).
  - simpl. rewrite Hc. discriminate.
Qed.

Lemma clean_text_nonempty_inv (text : str) : strip text <> [] -> clean_text text <> [].
Proof.
  intros Hne H. apply Hne. unfold clean_text in H.
  apply strip_nil_iff. apply (sub_whitespace_all_space_inv false).
  apply strip_nil_iff. exact H.
Qed.

(** ** The extractor, continued *)

Lemma clean_text_stripped_single_spaced (text : str) :
  strip (clean_text text) = clean_text text
  /\ single_spaced false (clean_text text) = true.
Proof.
  split.
  - unfold clean_text. apply strip_strip.
  - unfold clean_text.
    destruct (strip_segment (sub_whitespace false text)) as (a & z & E).
    pose proof (sub_whitespace_single_spaced false text) as H.
    rewrite E in H. apply single_spaced_app_r in H.
    exact (single_spaced_app_l _ _ _ H).
Qed.

(** X1.  The text [clean_text] returns has no whitespace at either end,
    and inside it the only whitespace is the space character, never two
    in a row. *)
Theorem clean_text_normal_form (text : str) :
  strip (clean_text text) = clean_text text
  /\ single_spaced false (clean_text text) = true.
Proof. exact (clean_text_stripped_single_spaced text). Qed.

(** X2.  Cleaning is idempotent: a cleaned text is left as it is. *)
Theorem clean_text_idempotent (text : str) :
  clean_text (clean_text text) = clean_text text.
Proof.
  destruct (clean_text_stripped_single_spaced text) as [Hs Hsp].
  unfold clean_text at 1. rewrite (sub_whitespace_fixed _ _ Hsp). exact Hs.
Qed.

Lemma has_text_not_all_space (p : str) : has_text p = true -> forallb isspace p = false.
Proof.
  unfold has_text. intros H. apply andb_true_iff in H as [_ H].
  apply Z.ltb_lt in H.
  destruct (forallb isspace p) eqn:F; [|reflexivity].
  apply strip_nil_iff in F. rewrite F in H. unfold len in H. simpl in H. lia.
Qed.

Lemma forallb_isspace_app (a b : str) :
  forallb isspace (a ++ b) = forallb isspace a && forallb isspace b.
Proof. apply forallb_app. Qed.

Lemma join_has_text (parts : list str) :
  parts <> [] -> Forall (fun p => has_text p = true) parts ->
  strip (join [space] parts) <> [].
Proof.
  intros Hne Hall H. apply strip_nil_iff in H.
  destruct parts as [|p ps]; [congruence|].
  apply Forall_cons_1 in Hall as [Hp _].
  apply has_text_not_all_space in Hp.
  destruct ps as [|p' ps]; simpl in H.
  - congruence.
  - rewrite forallb_isspace_app, Hp in H. discriminate.
Qed.

Lemma filter_has_text l : Forall (fun p => has_text p = true) (List.filter has_text l).
Proof.
  apply Forall_forall. intros x Hx. apply list_elem_of_In in Hx.
  apply filter_In in Hx. tauto.
Qed.

(** Every fragment the tiers keep holds text. *)
Lemma text_parts_have_text (soup : Soup) :
  Forall (fun p => has_text p = true) (text_parts_of soup).
Proof.
  unfold text_parts_of.
  set (tagged := flat_map _ CONTENT_TAGS).
  assert (Ht : Forall (fun p => has_text p = true) tagged).
  { subst tagged. induction CONTENT_TAGS as [|t ts IH]; simpl; [constructor|].
    apply Forall_app. split; [apply filter_has_text | exact IH]. }
  destruct tagged as [|x xs]; [|exact Ht].
  destruct (body_text soup) as [b|].
  - destruct (has_text b) eqn:Hb.
    + repeat constructor. exact Hb.
    + destruct (has_text (document_text soup)) eqn:Hd; repeat constructor. exact Hd.
  - destruct (has_text (document_text soup)) eqn:Hd; repeat constructor. exact Hd.
Qed.

Lemma extract_text_from_url_no_text W url tr html tr' :
  fetch_html W url 10 tr = (Ok html, tr') ->
  text_parts_of (BeautifulSoup W html REMOVE_TAGS) = [] ->
  extract_text_from_url W url tr = (Raise (Exc ValueError no_text_msg), tr').
Proof.
  intros Hf He. unfold extract_text_from_url.
  rewrite (bind_ok _ _ _ _ _ Hf). cbv zeta. rewrite He. unfold no_text_msg.
  reflexivity.
Qed.

Lemma extract_text_from_url_cases
    (W : World) (url : str) (tr : trace) (html : str) (tr' : trace) :
  fetch_html W url 10 tr = (Ok html, tr') ->
  (text_parts_of (BeautifulSoup W html REMOVE_TAGS) = []
   /\ extract_text_from_url W url tr = (Raise (Exc ValueError no_text_msg), tr'))
  \/ (text_parts_of (BeautifulSoup W html REMOVE_TAGS) <> []
      /\ extract_text_from_url W url tr
         = (Ok (limit_length
                  (clean_text
                     (join [space] (text_parts_of (BeautifulSoup W html REMOVE_TAGS))))),
            tr')).
Proof.
  intros Hf.
  destruct (text_parts_of (BeautifulSoup W html REMOVE_TAGS)) as [|p ps] eqn:E.
  - left. split; [reflexivity|]. apply (extract_text_from_url_no_text W url tr html tr' Hf E).
  - right. split; [discriminate|]. rewrite <- E.
    apply extract_text_from_url_returns; [exact Hf|].
    apply clean_text_nonempty_inv, join_has_text.
    + rewrite E. discriminate.
    + apply text_parts_have_text.
Qed.



Lemma limit_length_len (cleaned_text : str) :
  len (limit_length cleaned_text) <= MAX_TEXT_LENGTH + 3.
Proof.
  destruct (Z.le_gt_cases (len cleaned_text) MAX_TEXT_LENGTH) as [H|H].
  - unfold limit_length. destruct (Z.ltb_spec MAX_TEXT_LENGTH (len cleaned_text)); lia.
  - destruct (limit_length_spec cleaned_text H) as (body & -> & Hb & _).
    rewrite len_app. change (len (py "...")) with 3. lia.
Qed.

Lemma limit_length_has_text (cleaned_text : str) :
  strip cleaned_text <> [] -> strip (limit_length cleaned_text) <> [].
Proof.
  intros Hne. unfold limit_length.
  destruct (MAX_TEXT_LENGTH <? len cleaned_text); [|exact Hne].
  intros H. apply strip_nil_iff in H.
  rewrite forallb_isspace_app in H. apply andb_true_iff in H as [_ H].
  vm_compute in H. discriminate.
Qed.

Lemma extract_text_from_url_returns_inv W url tr text tr' :
  extract_text_from_url W url tr = (Ok text, tr') ->
  exists html, fetch_html W url 10 tr = (Ok html, tr').
Proof.
  unfold extract_text_from_url, bind.
  destruct (fetch_html W url 10 tr) as [[html|e] tr0]; [|discriminate].
  cbv zeta.
  repeat match goal with
         | |- context [if ?b then _ else _] => destruct b
         end; unfold raise, ret; intros [= _ <-]; eauto.
Qed.

(** X4.  A text the extractor returns holds a character that is not
    whitespace, so it is not empty, and has at most 10,003 characters. *)
Theorem extract_text_from_url_output
    (W : World) (url : str) (tr : trace) (text : str) (tr' : trace) :
  extract_text_from_url W url tr = (Ok text, tr') ->
  strip text <> [] /\ text <> [] /\ len text <= MAX_TEXT_LENGTH + 3.
Proof.
  intros He. destruct (extract_text_from_url_returns_inv _ _ _ _ _ He) as [html Hf].
  destruct (extract_text_from_url_cases W url tr html tr' Hf)
    as [[_ E] | [Hne E]]; rewrite E in He; [discriminate|].
  injection He as <-.
  assert (Hs : strip (limit_length (clean_text (join [space]
                 (text_parts_of (BeautifulSoup W html REMOVE_TAGS))))) <> []).
  { apply limit_length_has_text.
    destruct (clean_text_stripped_single_spaced (join [space]
                (text_parts_of (BeautifulSoup W html REMOVE_TAGS)))) as [-> _].
    apply clean_text_nonempty_inv, join_has_text;
      [exact Hne | apply text_parts_have_text]. }
  split; [exact Hs|]. split; [|apply limit_length_len].
  intros E0. rewrite E0 in Hs. apply Hs. reflexivity.
Qed.

Lemma extract_text_from_url_output_witness :
  extract_text_from_url world_fine sample_url [] = (Ok paragraph_60, [HttpGet sample_url 10])
  /\ strip paragraph_60 <> [] /\ paragraph_60 <> []
  /\ len paragraph_60 <= MAX_TEXT_LENGTH + 3.
Proof.
  assert (He : extract_text_from_url world_fine sample_url []
               = (Ok paragraph_60, [HttpGet sample_url 10])).
  { vm_compute. reflexivity. }
  split; [exact He|].
  exact (extract_text_from_url_output world_fine sample_url [] paragraph_60
           [HttpGet sample_url 10] He).
Defined.

(** ** What a decorated call does to the trace *)

Section RetryTrace.

Context {A : Type} (retry_on : exc -> bool) (f : M A) (ext : trace -> Prop).

Hypothesis f_ext : forall tr, exists evs, snd (f tr) = tr ++ evs /\ ext evs.

(** One, two or three calls, a sleep of 2 seconds between two calls. *)
Lemma retry3_trace tr :
  exists e1 e2 e3, ext e1 /\ ext e2 /\ ext e3 /\
    (snd (tenacity.retry 3 (tenacity.wait_exponential 1 2 10) retry_on f tr) = tr ++ e1
     \/ snd (tenacity.retry 3 (tenacity.wait_exponential 1 2 10) retry_on f tr)
        = tr ++ e1 ++ [Sleep 2] ++ e2
     \/ snd (tenacity.retry 3 (tenacity.wait_exponential 1 2 10) retry_on f tr)
        = tr ++ e1 ++ [Sleep 2] ++ e2 ++ [Sleep 2] ++ e3).
Proof.
  unfold tenacity.retry. simpl.
  destruct (f_ext tr) as (e1 & H1 & X1).
  destruct (f tr) as [[a|e] tr1] eqn:F1; simpl in H1; subst tr1.
  { exists e1, e1, e1. auto. }
  destruct (retry_on e); [|exists e1, e1, e1; auto].
  change (tenacity.wait_exponential 1 2 10 1) with 2.
  destruct (f_ext ((tr ++ e1) ++ [Sleep 2])) as (e2 & H2 & X2).
  destruct (f ((tr ++ e1) ++ [Sleep 2])) as [[a|e'] tr2] eqn:F2; simpl in H2; subst tr2.
  { exists e1, e2, e1. repeat split; auto. right. left. simpl.
    rewrite <- !app_assoc. reflexivity. }
  destruct (retry_on e').
  2:{ exists e1, e2, e1. repeat split; auto. right. left. simpl.
      rewrite <- !app_assoc. reflexivity. }
  change (tenacity.wait_exponential 1 2 10 (1 + 1)) with 2.
  destruct (f_ext ((((tr ++ e1) ++ [Sleep 2]) ++ e2) ++ [Sleep 2])) as (e3 & H3 & X3).
  exists e1, e2, e3. repeat split; auto. right. right.
  assert (E : snd (f ((((tr ++ e1) ++ [Sleep 2]) ++ e2) ++ [Sleep 2]))
              = tr ++ e1 ++ [Sleep 2] ++ e2 ++ [Sleep 2] ++ e3).
  { rewrite H3. rewrite <- !app_assoc. reflexivity. }
  destruct (f ((((tr ++ e1) ++ [Sleep 2]) ++ e2) ++ [Sleep 2])) as [[a|e''] tr3];
    simpl in E |- *; [exact E|]. destruct (retry_on e''); exact E.
Qed.

Lemma attempts_raises_inv n k wait tr e tr' :
  tenacity.attempts n k wait retry_on f tr = (Raise e, tr') ->
  exists tr0, f tr0 = (Raise e, tr').
Proof.
  revert k tr. induction n as [|n IH]; intros k tr; simpl.
  - destruct (f tr) as [[a0|e0] tr1] eqn:H; [discriminate|].
    destruct (retry_on e0); intros [= <- <-]; eauto.
  - destruct (f tr) as [[a0|e0] tr1] eqn:H; [discriminate|].
    destruct (retry_on e0); [apply IH | intros [= <- <-]; eauto].
Qed.

End RetryTrace.

Lemma fetch_html_call_ext W url timeout tr :
  exists evs, snd (fetch_html_call W url timeout tr) = tr ++ evs
              /\ (evs = [] \/ evs = [HttpGet url timeout]).
Proof.
  unfold fetch_html_call. destruct (validate_url W url); simpl.
  - exists [HttpGet url timeout]. split; [|right; reflexivity].
    unfold bind, try_except, get, raise_for_status.
    destruct (requests_get W url (length (http_gets tr))) as [r|e]; simpl.
    + destruct (truthy (http_error_msg r)); reflexivity.
    + repeat match goal with
             | |- context [if ?b then _ else _] => destruct b
             end; reflexivity.
  - exists []. split; [|left; reflexivity]. rewrite app_nil_r. reflexivity.
Qed.

Lemma get_questions_from_text_call_ext W text tr :
  exists evs, snd (get_questions_from_text_call W text tr) = tr ++ evs
              /\ (evs = [] \/ evs = [CompletionsCreate (prompt_of text)]).
Proof.
  unfold get_questions_from_text_call.
  destruct (negb (client_configured W)).
  { exists []. split; [|left; reflexivity]. rewrite app_nil_r. reflexivity. }
  destruct (blank (Some text)).
  { exists []. split; [|left; reflexivity]. rewrite app_nil_r. reflexivity. }
  exists [CompletionsCreate (prompt_of text)]. split; [|right; reflexivity].
  unfold try_except, bind, create.
  destruct (completions_create W _ _) as [response|e]; simpl.
  - destruct (choices response) as [|choice others]; simpl; [reflexivity|].
    destruct (blank (content choice)); reflexivity.
  - repeat match goal with
           | |- context [if ?b then _ else _] => destruct b
           end; reflexivity.
Qed.

Ltac trace_cases H :=
  destruct H as (?e1 & ?e2 & ?e3 & [-> | ->] & [-> | ->] & [-> | ->] & [H | [H | H]]);
  (eexists; split; [exact H|]); simpl;
  repeat split; try (repeat constructor; auto; fail); try lia.

Lemma fetch_html_events W url timeout tr :
  exists evs,
    snd (fetch_html W url timeout tr) = tr ++ evs
    /\ Forall (fun ev => ev = HttpGet url timeout \/ ev = Sleep 2) evs
    /\ (length (http_gets evs) <= 3)%nat
    /\ (length (sleeps evs) <= 2)%nat.
Proof.
  unfold fetch_html.
  pose proof (retry3_trace
    (tenacity.retry_if_exception_type [Timeout; ConnectionError; RequestException])
    (fetch_html_call W url timeout) _ (fetch_html_call_ext W url timeout) tr) as H.
  trace_cases H.
Qed.

(** X5.  Whatever the network does, one call of [fetch_html] sends at
    most three GETs, all to the given URL with the given timeout, sleeps
    at most twice, 2 seconds each time, and does nothing else. *)
Theorem fetch_html_effects (W : World) (url : str) (timeout : Z) (tr : trace) :
  exists evs,
    snd (fetch_html W url timeout tr) = tr ++ evs
    /\ Forall (fun ev => ev = HttpGet url timeout \/ ev = Sleep 2) evs
    /\ (length (http_gets evs) <= 3)%nat
    /\ (length (sleeps evs) <= 2)%nat.
Proof. exact (fetch_html_events W url timeout tr). Qed.

Lemma get_questions_from_text_events W text tr :
  exists evs,
    snd (get_questions_from_text W text tr) = tr ++ evs
    /\ Forall (fun ev => ev = CompletionsCreate (prompt_of text) \/ ev = Sleep 2) evs
    /\ (length (completion_requests evs) <= 3)%nat
    /\ (length (sleeps evs) <= 2)%nat.
Proof.
  unfold get_questions_from_text.
  pose proof (retry3_trace (tenacity.retry_if_exception_type [Exception])
    (get_questions_from_text_call W text) _ (get_questions_from_text_call_ext W text) tr)
    as H.
  trace_cases H.
Qed.

(** X6.  Whatever the endpoint does, one call of
    [get_questions_from_text] sends at most three completion requests,
    each with the prompt built from the given text, sleeps at most twice,
    2 seconds each time, and does nothing else. *)
Theorem get_questions_from_text_effects (W : World) (text : str) (tr : trace) :
  exists evs,
    snd (get_questions_from_text W text tr) = tr ++ evs
    /\ Forall (fun ev => ev = CompletionsCreate (prompt_of text) \/ ev = Sleep 2) evs
    /\ (length (completion_requests evs) <= 3)%nat
    /\ (length (sleeps evs) <= 2)%nat.
Proof. exact (get_questions_from_text_events W text tr). Qed.

(** ** The generator, continued *)

Lemma long_enough_len (q : str) : long_enough q = true -> 3 < len q.
Proof.
  unfold long_enough. intros H. apply andb_true_iff in H as [_ H].
  apply Z.ltb_lt. exact H.
Qed.

Lemma clean_line_stripped (line : str) :
  strip line = line -> strip (clean_line line) = clean_line line.
Proof.
  intros Hl. unfold clean_line.
  set (cleaned := match line with
                  | [] => line
                  | c :: _ => if isdigit c then
                                match split1 dot line with
                                | [_; rest] => strip rest
                                | _ => line
                                end
                              else line
                  end).
  assert (Hc : strip cleaned = cleaned).
  { subst cleaned. destruct line as [|c l]; [exact Hl|].
    destruct (isdigit c); [|exact Hl].
    destruct (split1 dot (c :: l)) as [|x [|y [|z w]]]; try exact Hl.
    apply strip_strip. }
  destruct cleaned as [|c l]; [exact Hc|].
  destruct (existsb (N.eqb c) list_markers); [apply strip_strip | exact Hc].
Qed.

Lemma all_lines_stripped (result_text : str) :
  Forall (fun line => strip line = line) (all_lines result_text).
Proof.
  unfold all_lines. apply Forall_forall. intros x Hx.
  apply list_elem_of_In, in_map_iff in Hx as (y & <- & _). apply strip_strip.
Qed.

(** The questions of either parse are longer than three characters and
    have no whitespace around them. *)
Lemma chosen_parse_questions (result_text : str) :
  Forall (fun q => 3 < len q /\ strip q = q) (chosen_parse result_text).
Proof.
  unfold chosen_parse. cbv zeta.
  destruct (_ <? 5).
  - unfold second_parse. apply Forall_forall. intros q Hq.
    apply list_elem_of_In, filter_In in Hq as [Hq Hl].
    split; [apply long_enough_len, Hl|].
    apply in_map_iff in Hq as (y & <- & _). apply strip_strip.
  - unfold first_parse. apply Forall_forall. intros q Hq.
    apply list_elem_of_In, filter_In in Hq as [Hq Hl].
    split; [apply long_enough_len, Hl|].
    apply in_map_iff in Hq as (y & <- & Hy).
    apply clean_line_stripped.
    pose proof (all_lines_stripped result_text) as Hall.
    rewrite Forall_forall in Hall. apply Hall, list_elem_of_In, Hy.
Qed.

(** X7.  Whenever [get_questions_from_text] returns, the list has at most
    five questions, and each of them has more than three characters and
    no whitespace at either end. *)
Theorem get_questions_from_text_output
    (W : World) (text : str) (tr : trace) (questions : list str) (tr' : trace) :
  get_questions_from_text W text tr = (Ok questions, tr') ->
  (length questions <= 5)%nat
  /\ Forall (fun q => 3 < len q /\ strip q = q) questions.
Proof.
  intros H. apply get_questions_from_text_returns_inv in H as [rt ->]. split.
  - rewrite length_take. lia.
  - apply Forall_take, chosen_parse_questions.
Qed.

Lemma get_questions_from_text_output_witness :
  get_questions_from_text world_long_page paragraph_60 []
  = (Ok [py "What is X?"; py "Why Y?"; py "How Z?"; py "When?"],
     [CompletionsCreate (prompt_of paragraph_60)])
  /\ (length [py "What is X?"; py "Why Y?"; py "How Z?"; py "When?"] <= 5)%nat
  /\ Forall (fun q => 3 < len q /\ strip q = q)
       [py "What is X?"; py "Why Y?"; py "How Z?"; py "When?"].
Proof.
  assert (H : get_questions_from_text world_long_page paragraph_60 []
              = (Ok [py "What is X?"; py "Why Y?"; py "How Z?"; py "When?"],
                 [CompletionsCreate (prompt_of paragraph_60)])).
  { vm_compute. reflexivity. }
  split; [exact H|].
  exact (get_questions_from_text_output world_long_page paragraph_60 [] _ _ H).
Defined.

(** What one call of the body raises: the two invalid-input failures, or
    a plain [Exception] made in the [except] clauses. *)
Lemma get_questions_from_text_call_raises W text tr e tr' :
  get_questions_from_text_call W text tr = (Raise e, tr') ->
  (client_configured W = false
   /\ e = Exc ValueError (py "OpenAI API ключ не настроен. Проверьте .env файл."))
  \/ (blank (Some text) = true /\ e = Exc ValueError (py "Текст не может быть пустым"))
  \/ (client_configured W = true /\ blank (Some text) = false
      /\ exc_type e = Exception /\ exc_status_code e = None).
Proof.
  unfold get_questions_from_text_call.
  destruct (client_configured W); cbn [negb].
  2:{ intros [= <- _]. left. auto. }
  destruct (blank (Some text)).
  { intros [= <- _]. right. left. auto. }
  intros H. right. right. split; [reflexivity|]. split; [reflexivity|].
  revert H. unfold try_except, bind, create.
  destruct (completions_create W _ _) as [response|e0]; simpl.
  - destruct (choices response) as [|choice others]; simpl.
    + intros [= <- _]. auto.
    + destruct (blank (content choice)); simpl; [|discriminate].
      intros [= <- _]. auto.
  - destruct (isinstance e0 RateLimitError); [simpl; intros [= <- _]; auto|].
    destruct (isinstance e0 APIConnectionError); [simpl; intros [= <- _]; auto|].
    destruct (isinstance e0 APITimeoutError); [simpl; intros [= <- _]; auto|].
    destruct (isinstance e0 APIError); [simpl; intros [= <- _]; auto|].
    unfold isinstance at 1. rewrite issubclass_Exception.
    simpl. intros [= <- _]. auto.
Qed.

Lemma get_questions_from_text_raises W text tr e tr' :
  get_questions_from_text W text tr = (Raise e, tr') ->
  (client_configured W = false
   /\ e = Exc ValueError (py "OpenAI API ключ не настроен. Проверьте .env файл."))
  \/ (blank (Some text) = true /\ e = Exc ValueError (py "Текст не может быть пустым"))
  \/ (client_configured W = true /\ blank (Some text) = false
      /\ exc_type e = Exception /\ exc_status_code e = None).
Proof.
  unfold get_questions_from_text, tenacity.retry. intros H.
  apply attempts_raises_inv in H as [tr0 H].
  exact (get_questions_from_text_call_raises W text tr0 e tr' H).
Qed.

(** X8.  A failure of [get_questions_from_text] is one of three: the
    [ValueError] for the missing credential, the [ValueError] for the
    blank text, or, once a request was attempted, a plain [Exception];
    no class of the openai library and no [ValueError] made after the
    request leaves the function. *)
Theorem get_questions_from_text_failures
    (W : World) (text : str) (tr : trace) (e : exc) (tr' : trace) :
  get_questions_from_text W text tr = (Raise e, tr') ->
  (client_configured W = false
   /\ e = Exc ValueError (py "OpenAI API ключ не настроен. Проверьте .env файл."))
  \/ (blank (Some text) = true /\ e = Exc ValueError (py "Текст не может быть пустым"))
  \/ (client_configured W = true /\ blank (Some text) = false
      /\ exc_type e = Exception /\ exc_status_code e = None).
Proof. exact (get_questions_from_text_raises W text tr e tr'). Qed.

Lemma get_questions_from_text_failures_witness :
  get_questions_from_text world_no_key paragraph_60 []
  = (Raise (Exc ValueError (py "OpenAI API ключ не настроен. Проверьте .env файл.")),
     [Sleep 2; Sleep 2])
  /\ ((client_configured world_no_key = false
       /\ Exc ValueError (py "OpenAI API ключ не настроен. Проверьте .env файл.")
          = Exc ValueError (py "OpenAI API ключ не настроен. Проверьте .env файл."))
      \/ (blank (Some paragraph_60) = true
          /\ Exc ValueError (py "OpenAI API ключ не настроен. Проверьте .env файл.")
             = Exc ValueError (py "Текст не может быть пустым"))
      \/ (client_configured world_no_key = true /\ blank (Some paragraph_60) = false
          /\ exc_type (Exc ValueError (py "OpenAI API ключ не настроен. Проверьте .env файл."))
             = Exception
          /\ exc_status_code
               (Exc ValueError (py "OpenAI API ключ не настроен. Проверьте .env файл."))
             = None)).
Proof.
  assert (H : get_questions_from_text world_no_key paragraph_60 []
              = (Raise (Exc ValueError (py "OpenAI API ключ не настроен. Проверьте .env файл.")),
                 [Sleep 2; Sleep 2])).
  { vm_compute. reflexivity. }
  split; [exact H|].
  exact (get_questions_from_text_failures world_no_key paragraph_60 [] _ _ H).
Defined.







(** ** The pipeline and the endpoint, continued *)

Lemma extract_text_from_url_trace W url tr :
  snd (extract_text_from_url W url tr) = snd (fetch_html W url 10 tr).
Proof.
  unfold extract_text_from_url, bind.
  destruct (fetch_html W url 10 tr) as [[html|e] tr0]; [|reflexivity].
  cbv zeta.
  repeat match goal with
         | |- context [if ?b then _ else _] => destruct b
         end; reflexivity.
Qed.

(** The text that goes into the prompt: cut when over the cap. *)
Lemma prompt_text_len (text : str) :
  len (if MAX_TEXT_LENGTH_FOR_OPENAI <? len text
       then smart_truncate_text text MAX_TEXT_LENGTH_FOR_OPENAI else text)
  <= MAX_TEXT_LENGTH_FOR_OPENAI.
Proof.
  destruct (Z.ltb_spec MAX_TEXT_LENGTH_FOR_OPENAI (len text)); [|assumption].
  apply smart_truncate_text_len. unfold MAX_TEXT_LENGTH_FOR_OPENAI. lia.
Qed.

(** The run of the pipeline, stage by stage. *)
Lemma generate_questions_from_url_stages W url tr :
  (exists e0 e, extract_text_from_url W url tr = (Raise e0, snd (fetch_html W url 10 tr))
      /\ generate_questions_from_url W url tr = (Raise e, snd (fetch_html W url 10 tr)))
  \/ (exists text, extract_text_from_url W url tr = (Ok text, snd (fetch_html W url 10 tr))
        /\ (negb (truthy text) || (len (strip text) <? MIN_TEXT_LENGTH)) = true
        /\ generate_questions_from_url W url tr
           = (Raise (Exc ValueError (insufficient_text_msg text)),
              snd (fetch_html W url 10 tr)))
  \/ (exists text t,
        extract_text_from_url W url tr = (Ok text, snd (fetch_html W url 10 tr))
        /\ (negb (truthy text) || (len (strip text) <? MIN_TEXT_LENGTH)) = false
        /\ t = (if MAX_TEXT_LENGTH_FOR_OPENAI <? len text
                then smart_truncate_text text MAX_TEXT_LENGTH_FOR_OPENAI else text)
        /\ ((exists questions tr1,
               get_questions_from_text W t (snd (fetch_html W url 10 tr)) = (Ok questions, tr1)
               /\ generate_questions_from_url W url tr = (Ok questions, tr1))
            \/ (exists e1 e tr1,
                  get_questions_from_text W t (snd (fetch_html W url 10 tr)) = (Raise e1, tr1)
                  /\ generate_questions_from_url W url tr = (Raise e, tr1)
                  /\ e = (if isinstance e1 ValueError
                          then Exc ValueError
                                 (py "Ошибка валидации при работе с OpenAI API: "
                                    ++ str_of_exc e1)
                          else Exc Exception
                                 (py "Неожиданная ошибка при работе агента: "
                                    ++ (py "Ошибка OpenAI API: " ++ str_of_exc e1)))))).
Proof.
  rewrite <- extract_text_from_url_trace.
  unfold generate_questions_from_url, try_except, bind.
  destruct (extract_text_from_url W url tr) as [[text|e0] tr0]; simpl snd.
  - destruct (negb (truthy text) || (len (strip text) <? MIN_TEXT_LENGTH)) eqn:S.
    + right. left. exists text. auto.
    + right. right. eexists text, _. split; [reflexivity|]. split; [exact S|].
      split; [reflexivity|].
      destruct (get_questions_from_text W _ tr0) as [[qs|e1] tr1].
      * left. eauto.
      * right. exists e1. simpl. destruct (isinstance e1 ValueError).
        -- simpl. eauto.
        -- unfold isinstance at 1. rewrite issubclass_Exception. simpl. eauto.
  - left. exists e0. simpl. destruct (isinstance e0 ValueError) eqn:HV.
    + simpl. eauto.
    + destruct (isinstance e0 RequestException) eqn:HR.
      * simpl. eauto.
      * simpl. rewrite HV, HR. unfold isinstance at 1. rewrite issubclass_Exception.
        simpl. eauto.
Qed.

Lemma events_weaken (P Q : event -> Prop) evs :
  (forall ev, P ev -> Q ev) -> Forall P evs -> Forall Q evs.
Proof. intros H HP. eapply Forall_impl; eassumption. Qed.

(** X10.  Whatever the world does, one run of
    [generate_questions_from_url] sends at most three GETs to the URL and
    at most three completion requests, and every completion request
    carries the prompt of one text of at most 8,000 characters. *)
Theorem generate_questions_from_url_effects (W : World) (url : str) (tr : trace) :
  exists evs t,
    snd (generate_questions_from_url W url tr) = tr ++ evs
    /\ len t <= MAX_TEXT_LENGTH_FOR_OPENAI
    /\ Forall (fun ev => ev = HttpGet url 10 \/ ev = Sleep 2
                         \/ ev = CompletionsCreate (prompt_of t)) evs
    /\ (length (http_gets evs) <= 3)%nat
    /\ (length (completion_requests evs) <= 3)%nat.
Proof.
  destruct (fetch_html_events W url 10 tr) as (ev1 & E1 & F1 & G1 & _).
  assert (C1 : completion_requests ev1 = []).
  { clear E1 G1. induction F1 as [|x l [-> | ->] _ IH]; [reflexivity | exact IH | exact IH]. }
  destruct (generate_questions_from_url_stages W url tr)
    as [(e0 & e & _ & ->) | [(text & _ & _ & ->) | (text & t & _ & _ & Ht & H)]].
  - exists ev1, []. simpl snd. split; [exact E1|]. split; [unfold len; simpl; unfold MAX_TEXT_LENGTH_FOR_OPENAI; lia|].
    split; [eapply events_weaken; [|exact F1]; intros ev [?|?]; auto|].
    split; [exact G1 | rewrite C1; simpl; lia].
  - exists ev1, []. simpl snd. split; [exact E1|]. split; [unfold len; simpl; unfold MAX_TEXT_LENGTH_FOR_OPENAI; lia|].
    split; [eapply events_weaken; [|exact F1]; intros ev [?|?]; auto|].
    split; [exact G1 | rewrite C1; simpl; lia].
  - destruct (get_questions_from_text_events W t (snd (fetch_html W url 10 tr)))
      as (ev2 & E2 & F2 & G2 & _).
    assert (H2 : http_gets ev2 = []).
    { clear E2 G2. induction F2 as [|x l [-> | ->] _ IH]; [reflexivity | exact IH | exact IH]. }
    assert (Htr : snd (generate_questions_from_url W url tr) = tr ++ ev1 ++ ev2).
    { destruct H as [(qs & tr1 & Hg & ->) | (e1 & e & tr1 & Hg & -> & _)];
        rewrite Hg in E2; simpl in E2 |- *; rewrite E2, E1, <- app_assoc; reflexivity. }
    exists (ev1 ++ ev2), t. split; [exact Htr|].
    split; [rewrite Ht; apply prompt_text_len|].
    split.
    { apply Forall_app. split.
      - eapply events_weaken; [|exact F1]. intros ev [?|?]; auto.
      - eapply events_weaken; [|exact F2]. intros ev [?|?]; auto. }
    rewrite http_gets_app, completion_requests_app, H2, C1, !length_app. simpl. lia.
Qed.

Lemma generate_questions_of_value_error W url tr message tr' :
  generate_questions_from_url W url tr = (Raise (Exc ValueError message), tr') ->
  generate_questions W url tr = (Raise (HTTPException_ 400 message), tr').
Proof.
  intros H. unfold generate_questions, try_except.
  erewrite bind_raise by exact H. reflexivity.
Qed.

Lemma generate_questions_of_exception W url tr message tr' :
  generate_questions_from_url W url tr = (Raise (Exc Exception message), tr') ->
  generate_questions W url tr
  = (Raise (HTTPException_ 500 (py "Ошибка при генерации вопросов: " ++ message)), tr').
Proof.
  intros H. unfold generate_questions, try_except.
  erewrite bind_raise by exact H. reflexivity.
Qed.

(** X11.  A failure that leaves [generate_questions_from_url] is of
    class [ValueError], [RequestException] or [Exception] exactly, never
    of a subclass: the kind of network failure ([HTTPError], [Timeout],
    [ConnectionError]) is lost on the way. *)
Theorem generate_questions_from_url_failure_classes
    (W : World) (url : str) (tr : trace) (e : exc) (tr' : trace) :
  generate_questions_from_url W url tr = (Raise e, tr') ->
  exc_type e = ValueError \/ exc_type e = RequestException \/ exc_type e = Exception.
Proof.
  intros H. exact (proj2 (generate_questions_from_url_raises W url tr e tr' H)).
Qed.

Lemma generate_questions_from_url_failure_classes_witness :
  generate_questions_from_url world_404 sample_url []
  = (Raise (Exc RequestException
              (py "Сетевая ошибка при загрузке страницы: HTTP ошибка 404: 404 Client Error: Not Found for url: https://example.com/article")),
     [HttpGet sample_url 10; Sleep 2; HttpGet sample_url 10; Sleep 2;
      HttpGet sample_url 10])
  /\ (exc_type (Exc RequestException
                  (py "Сетевая ошибка при загрузке страницы: HTTP ошибка 404: 404 Client Error: Not Found for url: https://example.com/article"))
      = ValueError
      \/ exc_type (Exc RequestException
                     (py "Сетевая ошибка при загрузке страницы: HTTP ошибка 404: 404 Client Error: Not Found for url: https://example.com/article"))
         = RequestException
      \/ exc_type (Exc RequestException
                     (py "Сетевая ошибка при загрузке страницы: HTTP ошибка 404: 404 Client Error: Not Found for url: https://example.com/article"))
         = Exception).
Proof.
  assert (H : generate_questions_from_url world_404 sample_url []
    = (Raise (Exc RequestException
                (py "Сетевая ошибка при загрузке страницы: HTTP ошибка 404: 404 Client Error: Not Found for url: https://example.com/article")),
       [HttpGet sample_url 10; Sleep 2; HttpGet sample_url 10; Sleep 2;
        HttpGet sample_url 10])).
  { vm_compute. reflexivity. }
  split; [exact H|].
  exact (generate_questions_from_url_failure_classes world_404 sample_url [] _ _ H).
Defined.

(** X12.  A URL the validator rejects is answered 400 by the endpoint,
    with the URL in the detail, and no request of any kind is sent and
    no wait made. *)
Theorem generate_questions_invalid_url (W : World) (url : str) (tr : trace) :
  validate_url W url = false ->
  generate_questions_from_url W url tr
  = (Raise (Exc ValueError
              (py "Ошибка при извлечении текста: " ++ (py "Невалидный URL: " ++ url))), tr)
  /\ generate_questions W url tr
     = (Raise (HTTPException_ 400
                 (py "Ошибка при извлечении текста: " ++ (py "Невалидный URL: " ++ url))), tr).
Proof.
  intros Hv.
  assert (G : generate_questions_from_url W url tr
              = (Raise (Exc ValueError
                   (py "Ошибка при извлечении текста: " ++ (py "Невалидный URL: " ++ url))), tr)).
  { unfold generate_questions_from_url.
    assert (He : extract_text_from_url W url tr
                 = (Raise (Exc ValueError (py "Невалидный URL: " ++ url)), tr)).
    { unfold extract_text_from_url. apply bind_raise.
      apply fetch_html_invalid_url, Hv. }
    unfold try_except at 1. erewrite bind_raise.
    2:{ unfold try_except. rewrite He. reflexivity. }
    reflexivity. }
  split; [exact G|]. apply generate_questions_of_value_error, G.
Qed.

Lemma generate_questions_invalid_url_witness :
  validate_url world_bad_url (py "example.com/article") = false
  /\ generate_questions_from_url world_bad_url (py "example.com/article") []
     = (Raise (Exc ValueError
                 (py "Ошибка при извлечении текста: "
                    ++ (py "Невалидный URL: " ++ py "example.com/article"))), [])
  /\ generate_questions world_bad_url (py "example.com/article") []
     = (Raise (HTTPException_ 400
                 (py "Ошибка при извлечении текста: "
                    ++ (py "Невалидный URL: " ++ py "example.com/article"))), []).
Proof.
  split; [reflexivity|].
  exact (generate_questions_invalid_url world_bad_url (py "example.com/article") []
           eq_refl).
Defined.

(** X13.  When the endpoint fails it raises an [HTTPException] whose
    status is 400, 500 or 503: the 408 of its [Timeout] clause is never
    produced. *)
Theorem generate_questions_failure_statuses
    (W : World) (url : str) (tr : trace) (e : exc) (tr' : trace) :
  generate_questions W url tr = (Raise e, tr') ->
  exc_type e = HTTPException
  /\ (exc_status_code e = Some 400 \/ exc_status_code e = Some 500
      \/ exc_status_code e = Some 503).
Proof. exact (generate_questions_status_codes W url tr e tr'). Qed.

Lemma generate_questions_failure_statuses_witness :
  generate_questions world_short_page sample_url []
  = (Raise (HTTPException_ 400
              (py "Недостаточно текста на странице для генерации вопросов. Минимум: 50 символов, получено: 30")),
     [HttpGet sample_url 10])
  /\ exc_type (HTTPException_ 400
                 (py "Недостаточно текста на странице для генерации вопросов. Минимум: 50 символов, получено: 30"))
     = HTTPException
  /\ (exc_status_code (HTTPException_ 400
                         (py "Недостаточно текста на странице для генерации вопросов. Минимум: 50 символов, получено: 30"))
      = Some 400
      \/ exc_status_code (HTTPException_ 400
                            (py "Недостаточно текста на странице для генерации вопросов. Минимум: 50 символов, получено: 30"))
         = Some 500
      \/ exc_status_code (HTTPException_ 400
                            (py "Недостаточно текста на странице для генерации вопросов. Минимум: 50 символов, получено: 30"))
         = Some 503).
Proof.
  assert (H : generate_questions world_short_page sample_url []
    = (Raise (HTTPException_ 400
                (py "Недостаточно текста на странице для генерации вопросов. Минимум: 50 символов, получено: 30")),
       [HttpGet sample_url 10])).
  { vm_compute. reflexivity. }
  split; [exact H|].
  exact (generate_questions_failure_statuses world_short_page sample_url [] _ _ H).
Defined.

(** X14.  Whatever [RequestException] the fetch ends with, an HTTP
    status error included, the endpoint answers 503 with the message of
    the failure in the detail: the 400 of its [HTTPError] clause is not
    reached. *)
Theorem generate_questions_network_failure
    (W : World) (url : str) (tr : trace) (e : exc) (tr' : trace) :
  fetch_html W url 10 tr = (Raise e, tr') ->
  isinstance e ValueError = false -> isinstance e RequestException = true ->
  generate_questions W url tr
  = (Raise (HTTPException_ 503
              (py "Сетевая ошибка при загрузке страницы: "
                 ++ (py "Сетевая ошибка при загрузке страницы: " ++ str_of_exc e))),
     tr').
Proof.
  intros Hf HV HR. apply generate_questions_of_request_exception.
  apply generate_questions_from_url_fetch_fails; assumption.
Qed.

Lemma generate_questions_network_failure_witness :
  fetch_html world_404 sample_url 10 []
  = (Raise (Exc HTTPError
              (py "HTTP ошибка 404: 404 Client Error: Not Found for url: https://example.com/article")),
     [HttpGet sample_url 10; Sleep 2; HttpGet sample_url 10; Sleep 2;
      HttpGet sample_url 10])
  /\ generate_questions world_404 sample_url []
     = (Raise (HTTPException_ 503
                 (py "Сетевая ошибка при загрузке страницы: "
                    ++ (py "Сетевая ошибка при загрузке страницы: "
                          ++ str_of_exc
                               (Exc HTTPError
                                  (py "HTTP ошибка 404: 404 Client Error: Not Found for url: https://example.com/article"))))),
        [HttpGet sample_url 10; Sleep 2; HttpGet sample_url 10; Sleep 2;
         HttpGet sample_url 10]).
Proof.
  assert (H : fetch_html world_404 sample_url 10 []
    = (Raise (Exc HTTPError
                (py "HTTP ошибка 404: 404 Client Error: Not Found for url: https://example.com/article")),
       [HttpGet sample_url 10; Sleep 2; HttpGet sample_url 10; Sleep 2;
        HttpGet sample_url 10])).
  { vm_compute. reflexivity. }
  split; [exact H|].
  exact (generate_questions_network_failure world_404 sample_url [] _ _ H eq_refl eq_refl).
Defined.

Lemma generate_questions_from_url_returns_inv W url tr questions tr' :
  generate_questions_from_url W url tr = (Ok questions, tr') ->
  exists t tr0, get_questions_from_text W t tr0 = (Ok questions, tr').
Proof.
  intros H.
  destruct (generate_questions_from_url_stages W url tr)
    as [(e0 & e & _ & E) | [(text & _ & _ & E) | (text & t & _ & _ & _ & S)]];
    try (rewrite E in H; discriminate).
  destruct S as [(qs & tr1 & Hg & E) | (e1 & e & tr1 & _ & E & _)];
    rewrite E in H; [|discriminate].
  injection H as <- <-. eauto.
Qed.

Lemma generate_questions_returns_inv W url tr questions tr' :
  generate_questions W url tr = (Ok questions, tr') ->
  exists generated,
    generate_questions_from_url W url tr = (Ok generated, tr')
    /\ generated <> [] /\ questions = take 5 generated.
Proof.
  unfold generate_questions, try_except, bind.
  destruct (generate_questions_from_url W url tr) as [[qs|e] tr0].
  - destruct qs as [|q qs].
    + simpl. discriminate.
    + intros [= <- <-]. eexists. split; [reflexivity|]. split; [discriminate | reflexivity].
  - simpl.
    repeat match goal with
           | |- context [if ?b then _ else _] => destruct b
           end; discriminate.
Qed.

(** X15.  When the endpoint answers with questions, there are between
    one and five of them, each longer than three characters and without
    whitespace at either end. *)
Theorem generate_questions_output
    (W : World) (url : str) (tr : trace) (questions : list str) (tr' : trace) :
  generate_questions W url tr = (Ok questions, tr') ->
  (1 <= length questions <= 5)%nat
  /\ Forall (fun q => 3 < len q /\ strip q = q) questions.
Proof.
  intros H.
  apply generate_questions_returns_inv in H as (generated & G & Hne & ->).
  apply generate_questions_from_url_returns_inv in G as (t & tr0 & G).
  apply get_questions_from_text_returns_inv in G as [rt ->].
  rewrite take_take. split.
  - rewrite length_take.
    destruct (chosen_parse rt) as [|q qs]; [exfalso; apply Hne; reflexivity|].
    simpl length. lia.
  - apply Forall_take, chosen_parse_questions.
Qed.

Lemma generate_questions_output_witness :
  generate_questions world_fine sample_url []
  = (Ok [py "What is X?"; py "Why Y?"; py "How Z?"; py "When?"; py "Who?"],
     [HttpGet sample_url 10; CompletionsCreate (prompt_of paragraph_60)])
  /\ (1 <= length [py "What is X?"; py "Why Y?"; py "How Z?"; py "When?"; py "Who?"] <= 5)%nat
  /\ Forall (fun q => 3 < len q /\ strip q = q)
       [py "What is X?"; py "Why Y?"; py "How Z?"; py "When?"; py "Who?"].
Proof.
  assert (H : generate_questions world_fine sample_url []
    = (Ok [py "What is X?"; py "Why Y?"; py "How Z?"; py "When?"; py "Who?"],
       [HttpGet sample_url 10; CompletionsCreate (prompt_of paragraph_60)])).
  { vm_compute. reflexivity. }
  split; [exact H|].
  exact (generate_questions_output world_fine sample_url [] _ _ H).
Defined.

Lemma not_short_text (text : str) :
  MIN_TEXT_LENGTH <= len (strip text) ->
  (negb (truthy text) || (len (strip text) <? MIN_TEXT_LENGTH)) = false.
Proof.
  intros H. destruct (Z.ltb_spec (len (strip text)) MIN_TEXT_LENGTH); [lia|].
  destruct text; [|reflexivity]. exfalso. vm_compute in H. apply H. reflexivity.
Qed.

(** The pipeline past the length check: what the generator raises is
    raised again, as a [ValueError] or wrapped twice as an [Exception]. *)
Lemma generate_questions_from_url_generator_fails W url tr text tr' e1 tr1 :
  extract_text_from_url W url tr = (Ok text, tr') ->
  MIN_TEXT_LENGTH <= len (strip text) ->
  get_questions_from_text W
    (if MAX_TEXT_LENGTH_FOR_OPENAI <? len text
     then smart_truncate_text text MAX_TEXT_LENGTH_FOR_OPENAI else text) tr'
  = (Raise e1, tr1) ->
  generate_questions_from_url W url tr
  = (Raise (if isinstance e1 ValueError
            then Exc ValueError
                   (py "Ошибка валидации при работе с OpenAI API: " ++ str_of_exc e1)
            else Exc Exception
                   (py "Неожиданная ошибка при работе агента: "
                      ++ (py "Ошибка OpenAI API: " ++ str_of_exc e1))),
     tr1).
Proof.
  intros He Hlen Hg.
  destruct (generate_questions_from_url_stages W url tr)
    as [(e0 & e & E & _) | [(text' & E & S & _) | (text' & t & E & _ & -> & H)]];
    rewrite He in E; try discriminate; injection E as <- Etr.
  - rewrite (not_short_text text Hlen) in S. discriminate.
  - rewrite <- Etr in H.
    destruct H as [(qs & tr2 & Hg' & _) | (e1' & e & tr2 & Hg' & -> & ->)];
      rewrite Hg in Hg'; [discriminate|].
    injection Hg' as <- <-. reflexivity.
Qed.

(** X16.  With no credential in the environment, a page with enough text
    is answered 400 by the endpoint, after the page was fetched and the
    two waits of the generator's retries have passed, and without any
    completion request. *)
Theorem generate_questions_missing_credential
    (W : World) (url : str) (tr : trace) (text : str) (tr' : trace) :
  client_configured W = false ->
  extract_text_from_url W url tr = (Ok text, tr') ->
  MIN_TEXT_LENGTH <= len (strip text) ->
  generate_questions W url tr
  = (Raise (HTTPException_ 400
              (py "Ошибка валидации при работе с OpenAI API: "
                 ++ py "OpenAI API ключ не настроен. Проверьте .env файл.")),
     tr' ++ [Sleep 2; Sleep 2]).
Proof.
  intros C He Hlen. apply generate_questions_of_value_error.
  rewrite (generate_questions_from_url_generator_fails W url tr text tr'
             (Exc ValueError (py "OpenAI API ключ не настроен. Проверьте .env файл."))
             (tr' ++ [Sleep 2; Sleep 2]) He Hlen).
  - reflexivity.
  - unfold get_questions_from_text. apply retry3_constant_failure.
    intros tr0. apply get_questions_from_text_call_no_client, C.
Qed.

Lemma generate_questions_missing_credential_witness :
  client_configured world_no_key = false
  /\ extract_text_from_url world_no_key sample_url []
     = (Ok paragraph_60, [HttpGet sample_url 10])
  /\ MIN_TEXT_LENGTH <= len (strip paragraph_60)
  /\ generate_questions world_no_key sample_url []
     = (Raise (HTTPException_ 400
                 (py "Ошибка валидации при работе с OpenAI API: "
                    ++ py "OpenAI API ключ не настроен. Проверьте .env файл.")),
        [HttpGet sample_url 10] ++ [Sleep 2; Sleep 2]).
Proof.
  assert (He : extract_text_from_url world_no_key sample_url []
               = (Ok paragraph_60, [HttpGet sample_url 10])).
  { vm_compute. reflexivity. }
  assert (Hl : MIN_TEXT_LENGTH <= len (strip paragraph_60)).
  { vm_compute. discriminate. }
  split; [reflexivity|]. split; [exact He|]. split; [exact Hl|].
  exact (generate_questions_missing_credential world_no_key sample_url []
           paragraph_60 [HttpGet sample_url 10] eq_refl He Hl).
Defined.

(** X17.  When the generator fails after a request was attempted, the
    endpoint answers 500, and the detail ends with the generator's
    message behind the headings the three layers put before it. *)
Theorem generate_questions_generator_failure
    (W : World) (url : str) (tr : trace) (text : str) (tr' : trace)
    (e1 : exc) (tr1 : trace) :
  extract_text_from_url W url tr = (Ok text, tr') ->
  MIN_TEXT_LENGTH <= len (strip text) ->
  get_questions_from_text W
    (if MAX_TEXT_LENGTH_FOR_OPENAI <? len text
     then smart_truncate_text text MAX_TEXT_LENGTH_FOR_OPENAI else text) tr'
  = (Raise e1, tr1) ->
  exc_type e1 = Exception ->
  generate_questions W url tr
  = (Raise (HTTPException_ 500
              (py "Ошибка при генерации вопросов: "
                 ++ (py "Неожиданная ошибка при работе агента: "
                       ++ (py "Ошибка OpenAI API: " ++ str_of_exc e1)))),
     tr1).
Proof.
  intros He Hlen Hg T. apply generate_questions_of_exception.
  rewrite (generate_questions_from_url_generator_fails W url tr text tr' e1 tr1 He Hlen Hg).
  unfold isinstance. rewrite T. reflexivity.
Qed.

Lemma generate_questions_generator_failure_witness :
  extract_text_from_url world_rate_limited sample_url []
  = (Ok paragraph_60, [HttpGet sample_url 10])
  /\ MIN_TEXT_LENGTH <= len (strip paragraph_60)
  /\ generate_questions world_rate_limited sample_url []
     = (Raise (HTTPException_ 500
                 (py "Ошибка при генерации вопросов: "
                    ++ (py "Неожиданная ошибка при работе агента: "
                          ++ (py "Ошибка OpenAI API: "
                                ++ str_of_exc
                                     (Exc Exception
                                        (py "Превышен лимит запросов к OpenAI API: Error code: 429")))))),
        [HttpGet sample_url 10; CompletionsCreate (prompt_of paragraph_60); Sleep 2;
         CompletionsCreate (prompt_of paragraph_60); Sleep 2;
         CompletionsCreate (prompt_of paragraph_60)]).
Proof.
  assert (He : extract_text_from_url world_rate_limited sample_url []
               = (Ok paragraph_60, [HttpGet sample_url 10])).
  { vm_compute. reflexivity. }
  assert (Hl : MIN_TEXT_LENGTH <= len (strip paragraph_60)).
  { vm_compute. discriminate. }
  assert (Hg : get_questions_from_text world_rate_limited
                 (if MAX_TEXT_LENGTH_FOR_OPENAI <? len paragraph_60
                  then smart_truncate_text paragraph_60 MAX_TEXT_LENGTH_FOR_OPENAI
                  else paragraph_60) [HttpGet sample_url 10]
               = (Raise (Exc Exception
                           (py "Превышен лимит запросов к OpenAI API: Error code: 429")),
                  [HttpGet sample_url 10; CompletionsCreate (prompt_of paragraph_60); Sleep 2;
                   CompletionsCreate (prompt_of paragraph_60); Sleep 2;
                   CompletionsCreate (prompt_of paragraph_60)])).
  { vm_compute. reflexivity. }
  split; [exact He|]. split; [exact Hl|].
  exact (generate_questions_generator_failure world_rate_limited sample_url []
           paragraph_60 [HttpGet sample_url 10] _ _ He Hl Hg eq_refl).
Defined.

(** ** The truncator, continued: the window in exact arithmetic *)

(** Rounding to 53 bits moves a number by at most one part in 2^52. *)
Lemma round53_near m :
  0 <= m ->
  (2 ^ 52 - 1) * m <= 2 ^ 52 * Float.round53 m <= (2 ^ 52 + 1) * m.
Proof.
  intros Hm. unfold Float.round53.
  destruct (Z.leb_spec (Z.log2 m + 1) 53) as [|Hbits]; [lia|].
  assert (Hpos : 0 < m).
  { destruct (Z.eq_dec m 0) as [->|]; [simpl in Hbits; lia | lia]. }
  set (s := Z.log2 m + 1 - 53) in *.
  assert (Hs : 1 <= s) by lia.
  pose proof (Z.log2_spec m Hpos) as [Hlo _].
  replace (Z.log2 m) with (s + 52) in Hlo by lia.
  rewrite Z.pow_add_r in Hlo by lia.
  rewrite Z.shiftr_div_pow2 by lia.
  rewrite Z.land_ones by lia.
  assert (Hd : 0 < 2 ^ s) by (apply Z.pow_pos_nonneg; lia).
  set (d := 2 ^ s) in *.
  pose proof (Z.div_mod m d ltac:(lia)) as Hdiv.
  pose proof (Z.mod_pos_bound m d Hd) as Hmod.
  set (q := m / d) in *. set (r := m mod d) in *.
  destruct ((Z.shiftl 1 (s - 1) <? r) || (r =? Z.shiftl 1 (s - 1)) && Z.odd q);
    rewrite Z.shiftl_mul_pow2 by lia; fold d; nia.
Qed.

Lemma mul_07_near n :
  0 <= n < 2 ^ 53 ->
  (2 ^ 52 - 1) * (n * Float.mant_07) <= 2 ^ 52 * Float.mul_07 n
  <= (2 ^ 52 + 1) * (n * Float.mant_07).
Proof.
  intros Hn. unfold Float.mul_07.
  destruct (Z.eq_dec n 0) as [->|Hnz]; [vm_compute; split; discriminate|].
  assert (Hr : Float.round53 (Z.abs n) = n).
  { rewrite Z.abs_eq by lia. unfold Float.round53.
    assert (Z.log2 n < 53) by (apply Z.log2_lt_pow2; lia).
    destruct (Z.leb_spec (Z.log2 n + 1) 53); [reflexivity | lia]. }
  rewrite Hr, Z.sgn_pos, Z.mul_1_l by lia.
  apply round53_near. unfold Float.mant_07. lia.
Qed.

(** The float comparison against the exact one, for caps below 2^48. *)
Lemma gt_mul_07_exact p n :
  0 <= n < 2 ^ 48 ->
  (7 * n < 10 * p -> Float.gt_mul_07 p n = true)
  /\ (Float.gt_mul_07 p n = true -> 7 * n <= 10 * p).
Proof.
  intros Hn.
  pose proof (mul_07_near n ltac:(lia)) as [Hlo Hhi].
  unfold Float.gt_mul_07. rewrite Z.ltb_lt.
  unfold Float.mant_07 in *.
  change (2 ^ 52) with 4503599627370496 in *.
  change (2 ^ 53) with 9007199254740992 in *.
  change (2 ^ 48) with 281474976710656 in *.
  split; intros H; lia.
Qed.

(** X18.  For a cap below 2^48 the window of the truncator's search is,
    in exact arithmetic, the part of the prefix from 0.7 times the cap
    on: every index of the prefix strictly above 0.7 * max_length is in
    it, and no index below 0.7 * max_length is. *)
Theorem smart_truncate_text_window_exact (max_length p : Z) :
  0 <= max_length < 2 ^ 48 ->
  (7 * max_length < 10 * p -> p < max_length -> in_window max_length p)
  /\ (in_window max_length p -> 7 * max_length <= 10 * p < 10 * max_length).
Proof.
  intros Hn. destruct (gt_mul_07_exact p max_length Hn) as [H1 H2].
  unfold in_window. split.
  - intros Hp Hlt. split; [exact (H1 Hp) | exact Hlt].
  - intros [G Hlt]. specialize (H2 G). lia.
Qed.

Lemma smart_truncate_text_window_exact_witness :
  0 <= 8000 < 2 ^ 48
  /\ (7 * 8000 < 10 * 5601 -> 5601 < 8000 -> in_window 8000 5601)
  /\ (in_window 8000 5601 -> 7 * 8000 <= 10 * 5601 < 10 * 8000).
Proof.
  split; [lia|].
  apply (smart_truncate_text_window_exact 8000 5601). lia.
Defined.

(** X19.  For a positive cap below 2^48, a text longer than the cap is
    cut to at least 70 per cent of the cap, and to no more than the
    cap. *)
Theorem smart_truncate_text_keeps_most (text : str) (max_length : Z) :
  0 < max_length < 2 ^ 48 -> max_length < len text ->
  7 * max_length <= 10 * len (smart_truncate_text text max_length)
  /\ len (smart_truncate_text text max_length) <= max_length.
Proof.
  intros Hn Hlong. split; [|apply smart_truncate_text_len; lia].
  destruct (smart_truncate_text_long text max_length ltac:(lia) Hlong)
    as [(p & Hp & (Hw & _) & ->) | [(_ & p & Hp & (Hw & _) & ->) | (_ & _ & ->)]].
  - destruct (gt_mul_07_exact p max_length ltac:(lia)) as [_ H].
    specialize (H (proj1 Hw)). rewrite len_slice_to; lia.
  - destruct (gt_mul_07_exact p max_length ltac:(lia)) as [_ H].
    specialize (H (proj1 Hw)). rewrite len_slice_to; lia.
  - rewrite len_slice_to; lia.
Qed.

Lemma smart_truncate_text_keeps_most_witness :
  0 < 10 < 2 ^ 48
  /\ 10 < len (py "aaaa bbbb cccc dddd")
  /\ 7 * 10 <= 10 * len (smart_truncate_text (py "aaaa bbbb cccc dddd") 10)
  /\ len (smart_truncate_text (py "aaaa bbbb cccc dddd") 10) <= 10.
Proof.
  assert (H : 10 < len (py "aaaa bbbb cccc dddd")) by (vm_compute; reflexivity).
  split; [lia|]. split; [exact H|].
  apply (smart_truncate_text_keeps_most (py "aaaa bbbb cccc dddd") 10); [lia | exact H].
Defined.

(** ** The fetcher, continued *)

(** X20.  A URL the validator rejects makes [fetch_html] raise a
    [ValueError] that names it, at the first attempt: no request is sent
    and no wait is made. *)
Theorem fetch_html_rejects_invalid_url
    (W : World) (url : str) (timeout : Z) (tr : trace) :
  validate_url W url = false ->
  fetch_html W url timeout tr
  = (Raise (Exc ValueError (py "Невалидный URL: " ++ url)), tr).
Proof. exact (fetch_html_invalid_url W url timeout tr). Qed.

Lemma fetch_html_rejects_invalid_url_witness :
  validate_url world_bad_url (py "example.com/article") = false
  /\ fetch_html world_bad_url (py "example.com/article") 10 []
     = (Raise (Exc ValueError (py "Невалидный URL: " ++ py "example.com/article")), []).
Proof.
  split; [reflexivity|].
  exact (fetch_html_rejects_invalid_url world_bad_url (py "example.com/article") 10 []
           eq_refl).
Defined.

(** X21.  When the first two attempts fail in a way the decorator
    retries and the third GET brings a page, [fetch_html] returns the
    text of that page after three GETs and two waits of 2 seconds. *)
Theorem fetch_html_succeeds_third_time
    (W : World) (url : str) (timeout : Z) (tr : trace)
    (o1 o2 : outcome Response) (r : Response) (e1 e2 : exc) :
  validate_url W url = true ->
  requests_get W url (length (http_gets tr)) = o1 -> retried_failure o1 e1 ->
  requests_get W url (S (length (http_gets tr))) = o2 -> retried_failure o2 e2 ->
  requests_get W url (S (S (length (http_gets tr)))) = Returns r ->
  ~ 400 <= status_code r < 600 ->
  fetch_html W url timeout tr
  = (Ok (response_text r),
     tr ++ [HttpGet url timeout; Sleep 2; HttpGet url timeout; Sleep 2;
            HttpGet url timeout]).
Proof.
  intros Hv. exact (fetch_html_third_time W url timeout Hv tr o1 o2 r e1 e2).
Qed.

Lemma fetch_html_succeeds_third_time_witness :
  validate_url world_flaky sample_url = true
  /\ retried_failure (Raises (Exc ConnectionError (py "Connection aborted.")))
       (Exc ConnectionError
          (py "Ошибка соединения: "
             ++ str_of_exc (Exc ConnectionError (py "Connection aborted."))))
  /\ ~ 400 <= status_code ok_response < 600
  /\ fetch_html world_flaky sample_url 10 []
     = (Ok (response_text ok_response),
        [] ++ [HttpGet sample_url 10; Sleep 2; HttpGet sample_url 10; Sleep 2;
               HttpGet sample_url 10]).
Proof.
  assert (F : retried_failure (Raises (Exc ConnectionError (py "Connection aborted.")))
                (Exc ConnectionError
                   (py "Ошибка соединения: "
                      ++ str_of_exc (Exc ConnectionError (py "Connection aborted."))))).
  { apply connection_failure; reflexivity. }
  assert (S : ~ 400 <= status_code ok_response < 600) by (simpl; lia).
  split; [reflexivity|]. split; [exact F|]. split; [exact S|].
  exact (fetch_html_succeeds_third_time world_flaky sample_url 10 [] _ _ ok_response _ _
           eq_refl eq_refl F eq_refl F eq_refl S).
Defined.

(** X22.  A response whose status is outside 400..599, a 3xx included,
    is not an error for [fetch_html]: its text is returned after the one
    GET. *)
Theorem fetch_html_returns_other_statuses
    (W : World) (url : str) (timeout : Z) (tr : trace) (r : Response) :
  validate_url W url = true ->
  requests_get W url (length (http_gets tr)) = Returns r ->
  ~ 400 <= status_code r < 600 ->
  fetch_html W url timeout tr = (Ok (response_text r), tr ++ [HttpGet url timeout]).
Proof.
  intros Hv. exact (fetch_html_first_time W url timeout Hv tr r).
Qed.

Lemma fetch_html_returns_other_statuses_witness :
  validate_url world_not_modified sample_url = true
  /\ status_code not_modified_response = 304
  /\ ~ 400 <= status_code not_modified_response < 600
  /\ fetch_html world_not_modified sample_url 10 []
     = (Ok (response_text not_modified_response), [] ++ [HttpGet sample_url 10]).
Proof.
  assert (S : ~ 400 <= status_code not_modified_response < 600) by (simpl; lia).
  split; [reflexivity|]. split; [reflexivity|]. split; [exact S|].
  exact (fetch_html_returns_other_statuses world_not_modified sample_url 10 []
           not_modified_response eq_refl eq_refl S).
Defined.

(** ** The command line *)

Lemma main_heading_of_class (e : exc) :
  exc_type e = ValueError \/ exc_type e = RequestException \/ exc_type e = Exception ->
  main_heading e = py "Ошибка: " \/ main_heading e = py "Сетевая ошибка: "
  \/ main_heading e = py "Ошибка OpenAI API: ".
Proof.
  unfold main_heading, isinstance. intros [-> | [-> | ->]].
  - left. reflexivity.
  - right. left. reflexivity.
  - right. right. reflexivity.
Qed.

(** X23.  When the pipeline fails, [main] exits with status 1, prints
    nothing to the standard output, writes no file, and prints one line
    to the standard error: the message behind "Ошибка: ", "Сетевая
    ошибка: " or "Ошибка OpenAI API: ".  The headings of its [HTTPError],
    [Timeout] and [ConnectionError] clauses are never printed. *)
Theorem main_failure
    (W : World) (write : str -> str -> option str) (url : str) (tr : trace)
    (e : exc) (tr' : trace) :
  generate_questions_from_url W url tr = (Raise e, tr') ->
  exists heading,
    main W write url tr
    = ({| exit_code := 1; stdout := []; stderr := [heading ++ str_of_exc e];
          written := None |}, tr')
    /\ (heading = py "Ошибка: " \/ heading = py "Сетевая ошибка: "
        \/ heading = py "Ошибка OpenAI API: ").
Proof.
  intros H. exists (main_heading e). split.
  - unfold main. rewrite H. reflexivity.
  - apply main_heading_of_class.
    exact (proj2 (generate_questions_from_url_raises W url tr e tr' H)).
Qed.

Lemma main_failure_witness :
  generate_questions_from_url world_timeout sample_url []
  = (Raise (Exc RequestException
              (py "Сетевая ошибка при загрузке страницы: Таймаут при загрузке страницы: Read timed out. (read timeout=10)")),
     [HttpGet sample_url 10; Sleep 2; HttpGet sample_url 10; Sleep 2;
      HttpGet sample_url 10])
  /\ exists heading,
       main world_timeout write_ok sample_url []
       = ({| exit_code := 1; stdout := [];
             stderr := [heading ++ str_of_exc
                          (Exc RequestException
                             (py "Сетевая ошибка при загрузке страницы: Таймаут при загрузке страницы: Read timed out. (read timeout=10)"))];
             written := None |},
          [HttpGet sample_url 10; Sleep 2; HttpGet sample_url 10; Sleep 2;
           HttpGet sample_url 10])
       /\ (heading = py "Ошибка: " \/ heading = py "Сетевая ошибка: "
           \/ heading = py "Ошибка OpenAI API: ").
Proof.
  assert (H : generate_questions_from_url world_timeout sample_url []
    = (Raise (Exc RequestException
                (py "Сетевая ошибка при загрузке страницы: Таймаут при загрузке страницы: Read timed out. (read timeout=10)")),
       [HttpGet sample_url 10; Sleep 2; HttpGet sample_url 10; Sleep 2;
        HttpGet sample_url 10])).
  { vm_compute. reflexivity. }
  split; [exact H|].
  exact (main_failure world_timeout write_ok sample_url [] _ _ H).
Defined.




Example main_numbered_lines :
  numbered 1 [py "What is X?"; py "Why Y?"] = [py "1. What is X?"; py "2. Why Y?"].
Proof. vm_compute. reflexivity. Qed.

(** ** The test module *)

